(** * packer-builder-vsphere: the VM driver ([driver/vm.go])

    A shallow embedding of the driver's virtual-machine operations and the
    properties its specification states about them.

    - Go structs are records, one module per struct so that the fields keep
      the names they have in the source ([CreateConfig.Name],
      [CloneConfig.Name], ...).
    - [int32] and [int64] values are [Z]; the driver only copies them, it
      performs no arithmetic on them, so no wrap-around can occur.
    - Pointers to freshly allocated values ([&cpuSpec], [types.NewBool])
      are [option]s, [nil] being [None].
    - Remote calls (the govmomi client) are events appended to a trace; what
      the remote end answers is given by an oracle that sees the history so
      far.  Every operation is a function from the world before the call to
      a result and the world after it.
    - The pure helpers of govmomi's [object.VirtualDeviceList] are an
      interface ([DeviceLib]); [Govmomi.lib] is an instance of it that the
      operations can be evaluated with. *)

From Stdlib Require Import ZArith List String Bool Lia.
From Stdlib Require Import DecimalString.
Import ListNotations.
Local Open Scope string_scope.
Local Open Scope Z_scope.
Local Open Scope list_scope.

(* ================================================================= *)
(** ** Results of Go calls *)

(** A Go [error] value, identified by its message. *)
Inductive error : Type :=
| mkError (msg : string).

(** What a Go function of type [(A, error)] returns: a value with a [nil]
    error, or a non-[nil] error. *)
Inductive result (A : Type) : Type :=
| Ok (a : A)
| Err (e : error).

Arguments Ok {A} a.
Arguments Err {A} e.

(** How a driver operation ends: it returns, or it panics at run time (a
    failed type assertion). *)
Inductive outcome (A : Type) : Type :=
| Returns (r : result A)
| Panics (msg : string).

Arguments Returns {A} r.
Arguments Panics {A} msg.

(* ================================================================= *)
(** ** Configuration model (vm.go, lines 17-54) *)

Module CloneConfig.
Record t : Type := mk {
  Name : string;
  Folder : string;
  Host : string;
  ResourcePool : string;
  Datastore : string;
  LinkedClone : bool
}.
End CloneConfig.

Module HardwareConfig.
Record t : Type := mk {
  CPUs : Z;            (* int32 *)
  CPUReservation : Z;  (* int64 *)
  CPULimit : Z;        (* int64 *)
  RAM : Z;             (* int64 *)
  RAMReservation : Z;  (* int64 *)
  RAMReserveAll : bool
}.

Definition with_CPULimit (l : Z) (c : t) : t :=
  mk (CPUs c) (CPUReservation c) l (RAM c) (RAMReservation c)
     (RAMReserveAll c).
End HardwareConfig.

Module DiskConfig.
Record t : Type := mk {
  DiskSizeKB : Z;      (* int64 *)
  ThinProvisioned : bool;
  ControllerType : string
}.
End DiskConfig.

Module CreateConfig.
(** [HardwareConfig] and [DiskConfig] are embedded structs: their fields
    are promoted, [config.DiskSizeKB] is [config.DiskConfig.DiskSizeKB]. *)
Record t : Type := mk {
  HardwareConfig : HardwareConfig.t;
  DiskConfig : DiskConfig.t;
  Annotation : string;
  Name : string;
  Folder : string;
  Host : string;
  ResourcePool : string;
  Datastore : string;
  GuestOS : string;
  Network : string;
  Force : bool
}.

Definition DiskSizeKB (c : t) : Z := DiskConfig.DiskSizeKB (DiskConfig c).
Definition ThinProvisioned (c : t) : bool :=
  DiskConfig.ThinProvisioned (DiskConfig c).
Definition ControllerType (c : t) : string :=
  DiskConfig.ControllerType (DiskConfig c).
End CreateConfig.

(* ================================================================= *)
(** ** The vSphere types the driver fills in (govmomi [vim25/types]) *)

Record ManagedObjectReference : Type := mkRef {
  ref_Type : string;
  ref_Value : string
}.

(** [types.ResourceAllocationInfo]: the driver assigns [int64] values to
    both fields, so both are plain integers in the vendored version; the
    fields the driver never touches keep their zero value and are left
    out. *)
Record ResourceAllocationInfo : Type := mkAlloc {
  Reservation : Z;
  Limit : Z
}.

(** vSphere's own encoding of "no fixed limit" in
    [ResourceAllocationInfo.limit] is the value -1. *)
Definition limit_is_unlimited (r : ResourceAllocationInfo) : bool :=
  Limit r =? -1.

Record VirtualMachineFileInfo : Type := mkFiles {
  VmPathName : string
}.

(** Backing descriptors of devices. *)
Inductive BackingInfo : Type :=
| VirtualDiskFlatVer2BackingInfo (DiskMode : string)
                                 (ThinProvisioned : option bool)
| EthernetCardBacking (network : string)
| CdromIsoBackingInfo (FileName : string).

(** The fields every [types.VirtualDevice] has. *)
Record VirtualDevice : Type := mkDev {
  Key : Z;               (* int32 *)
  ControllerKey : Z;     (* int32 *)
  UnitNumber : option Z; (* *int32 *)
  Backing : option BackingInfo
}.

(** The zero value of [types.VirtualDevice]. *)
Definition VirtualDevice_zero : VirtualDevice := mkDev 0 0 None None.

(** The SCSI controller classes of vSphere: [VirtualLsiLogicController],
    [VirtualBusLogicController], [ParaVirtualSCSIController] and
    [VirtualLsiLogicSASController]. *)
Inductive SCSIKind : Type :=
| LsiLogic
| BusLogic
| ParaVirtualSCSI
| LsiLogicSAS.

(** [types.BaseVirtualDevice]: the device classes the driver handles. *)
Inductive BaseVirtualDevice : Type :=
| VirtualIDEController (d : VirtualDevice)
| VirtualSCSIController (kind : SCSIKind) (d : VirtualDevice)
| VirtualDisk (d : VirtualDevice) (CapacityInKB : Z)
| VirtualEthernetCard (kind : string) (d : VirtualDevice)
| VirtualCdrom (d : VirtualDevice).

Definition GetVirtualDevice (b : BaseVirtualDevice) : VirtualDevice :=
  match b with
  | VirtualIDEController d => d
  | VirtualSCSIController _ d => d
  | VirtualDisk d _ => d
  | VirtualEthernetCard _ d => d
  | VirtualCdrom d => d
  end.

Definition VirtualDeviceList : Type := list BaseVirtualDevice.

Definition is_ide_controller (b : BaseVirtualDevice) : bool :=
  match b with VirtualIDEController _ => true | _ => false end.

Definition is_scsi_controller (b : BaseVirtualDevice) : bool :=
  match b with VirtualSCSIController _ _ => true | _ => false end.

Definition is_ethernet_card (b : BaseVirtualDevice) : bool :=
  match b with VirtualEthernetCard _ _ => true | _ => false end.

Record VirtualDeviceConfigSpec : Type := mkDevChange {
  Operation : string;
  Device : BaseVirtualDevice
}.

Definition VirtualDeviceConfigSpecOperationAdd : string := "add".
Definition VirtualDiskModePersistent : string := "persistent".
Definition VirtualMachinePowerStatePoweredOff : string := "poweredOff".

Module ConfigSpec.
(** [types.VirtualMachineConfigSpec], restricted to the fields the driver
    sets. *)
Record t : Type := mk {
  NumCPUs : Z;
  MemoryMB : Z;
  CpuAllocation : option ResourceAllocationInfo;
  MemoryAllocation : option ResourceAllocationInfo;
  MemoryReservationLockedToMax : option bool;
  Name : string;
  Annotation : string;
  GuestId : string;
  DeviceChange : list VirtualDeviceConfigSpec;
  Files : option VirtualMachineFileInfo
}.

(** [var confSpec types.VirtualMachineConfigSpec] *)
Definition zero : t := mk 0 0 None None None "" "" "" [] None.

Definition with_identity (name annotation guest : string) (s : t) : t :=
  mk (NumCPUs s) (MemoryMB s) (CpuAllocation s) (MemoryAllocation s)
     (MemoryReservationLockedToMax s) name annotation guest
     (DeviceChange s) (Files s).

Definition with_DeviceChange (dc : list VirtualDeviceConfigSpec) (s : t)
  : t :=
  mk (NumCPUs s) (MemoryMB s) (CpuAllocation s) (MemoryAllocation s)
     (MemoryReservationLockedToMax s) (Name s) (Annotation s) (GuestId s)
     dc (Files s).

Definition with_Files (f : option VirtualMachineFileInfo) (s : t) : t :=
  mk (NumCPUs s) (MemoryMB s) (CpuAllocation s) (MemoryAllocation s)
     (MemoryReservationLockedToMax s) (Name s) (Annotation s) (GuestId s)
     (DeviceChange s) f.
End ConfigSpec.

(* ================================================================= *)
(** ** Spec compiler (vm.go, lines 308-333) *)

(** [func (config HardwareConfig) toConfigSpec()] *)
Definition HardwareConfig_toConfigSpec (config : HardwareConfig.t)
  : ConfigSpec.t :=
  let cpuSpec := {| Reservation := HardwareConfig.CPUReservation config;
                    Limit := HardwareConfig.CPULimit config |} in
  let ramSpec := {| Reservation := HardwareConfig.RAMReservation config;
                    Limit := 0 |} in
  {| ConfigSpec.NumCPUs := HardwareConfig.CPUs config;
     ConfigSpec.MemoryMB := HardwareConfig.RAM config;
     ConfigSpec.CpuAllocation := Some cpuSpec;
     ConfigSpec.MemoryAllocation := Some ramSpec;
     ConfigSpec.MemoryReservationLockedToMax :=
       Some (HardwareConfig.RAMReserveAll config);
     ConfigSpec.Name := "";
     ConfigSpec.Annotation := "";
     ConfigSpec.GuestId := "";
     ConfigSpec.DeviceChange := [];
     ConfigSpec.Files := None |}.

(** [func (config CreateConfig) toConfigSpec()] *)
Definition CreateConfig_toConfigSpec (config : CreateConfig.t)
  : ConfigSpec.t :=
  let confSpec :=
    HardwareConfig_toConfigSpec (CreateConfig.HardwareConfig config) in
  ConfigSpec.with_identity (CreateConfig.Name config)
    (CreateConfig.Annotation config) (CreateConfig.GuestOS config) confSpec.

(* ================================================================= *)
(** ** Remote objects and requests *)

(** The driver's wrappers around inventory objects ([Folder], [ResourcePool],
    [Host], [Datastore]) and govmomi's network and task handles: opaque
    references; a datastore also knows its name. *)
Definition Folder : Type := ManagedObjectReference.
Definition ResourcePool : Type := ManagedObjectReference.
Definition Host : Type := ManagedObjectReference.
Definition Network : Type := ManagedObjectReference.
Definition Task : Type := ManagedObjectReference.

Record Datastore : Type := mkDatastore {
  ds : ManagedObjectReference;
  ds_Name : string
}.

(** [type VirtualMachine struct { vm; driver }]: the driver is the ambient
    environment of this development, the handle is the remote identity. *)
Record VirtualMachine : Type := mkVM {
  vm : ManagedObjectReference
}.

Record VirtualMachineRelocateSpec : Type := mkRelocate {
  Pool : option ManagedObjectReference;
  RelocateDatastore : option ManagedObjectReference;
  DiskMoveType : string
}.

Record VirtualMachineCloneSpec : Type := mkCloneSpec {
  Location : VirtualMachineRelocateSpec;
  PowerOn : bool;
  Snapshot : option ManagedObjectReference
}.

Record VirtualMachineSnapshotInfo : Type := mkSnapshotInfo {
  CurrentSnapshot : option ManagedObjectReference
}.

(** [mo.VirtualMachine], as far as the driver reads it. *)
Record MoVirtualMachine : Type := mkMoVM {
  mo_Name : string;
  mo_Snapshot : option VirtualMachineSnapshotInfo
}.

(** [types.AnyType], the payload of a finished task. *)
Inductive AnyType : Type :=
| AnyRef (r : ManagedObjectReference)
| AnyString (s : string)
| AnyNil.

Record TaskInfo : Type := mkTaskInfo {
  Result : AnyType
}.

(** One entry per call that leaves the process, plus [time.Sleep]. *)
Inductive Event : Type :=
| EvFindFolder (name : string)
| EvFindResourcePool (host pool : string)
| EvFindHost (name : string)
| EvFindDatastoreOrDefault (name : string)
| EvFileExists (d : Datastore) (path : string)
| EvNetworkOrDefault (name : string)
| EvEthernetCardBackingInfo (n : Network)
| EvCreateVM (f : Folder) (spec : ConfigSpec.t) (p : ResourcePool) (h : Host)
| EvWaitForResult (t : Task)
| EvProperties (v : VirtualMachine) (props : list string)
| EvClone (v : VirtualMachine) (f : Folder) (name : string)
          (spec : VirtualMachineCloneSpec)
| EvPowerState (v : VirtualMachine)
| EvPowerOff (v : VirtualMachine)
| EvDevice (v : VirtualMachine)
| EvReconfigure (v : VirtualMachine) (spec : ConfigSpec.t)
| EvSleep (d : Z).

Definition is_create_task (e : Event) : bool :=
  match e with EvCreateVM _ _ _ _ => true | _ => false end.

Definition is_clone_task (e : Event) : bool :=
  match e with EvClone _ _ _ _ => true | _ => false end.

Definition is_file_exists (e : Event) : bool :=
  match e with EvFileExists _ _ => true | _ => false end.

(** The world a call runs in: the calls made so far, oldest first, and the
    time in nanoseconds (the unit of [time.Duration]). *)
Record World : Type := mkWorld {
  trace : list Event;
  clock : Z
}.

Definition Second : Z := 1000000000.

(** What the remote end answers.  Every answer may depend on the history. *)
Record Remote : Type := mkRemote {
  FindFolder : World -> string -> result Folder;
  FindResourcePool : World -> string -> string -> result ResourcePool;
  FindHost : World -> string -> result Host;
  FindDatastoreOrDefault : World -> string -> result Datastore;
  FileExists : World -> Datastore -> string -> bool;
  DatastorePath : Datastore -> string -> string;
  NetworkOrDefault : World -> string -> result Network;
  EthernetCardBackingInfo : World -> Network -> result BackingInfo;
  Folder_CreateVM :
    World -> Folder -> ConfigSpec.t -> ResourcePool -> Host -> result Task;
  Task_WaitForResult : World -> Task -> result TaskInfo;
  VM_Properties :
    World -> VirtualMachine -> list string -> result MoVirtualMachine;
  VM_Clone :
    World -> VirtualMachine -> Folder -> string -> VirtualMachineCloneSpec ->
    result Task;
  VM_PowerState : World -> VirtualMachine -> result string;
  VM_PowerOff : World -> VirtualMachine -> result Task;
  VM_Device : World -> VirtualMachine -> result (list BaseVirtualDevice);
  VM_Reconfigure : World -> VirtualMachine -> ConfigSpec.t -> result Task;
  (** how long the call takes *)
  latency : World -> Event -> Z
}.

(** The helpers of govmomi's [object.VirtualDeviceList] the driver calls.
    They compute on the list and touch nothing remote.  [ConfigSpec] returns
    a Go pair: the driver reads both components. *)
Record DeviceLib : Type := mkLib {
  CreateSCSIController : VirtualDeviceList -> string -> result BaseVirtualDevice;
  CreateIDEController : VirtualDeviceList -> result BaseVirtualDevice;
  DeviceName : VirtualDeviceList -> BaseVirtualDevice -> string;
  FindDiskController : VirtualDeviceList -> string -> result BaseVirtualDevice;
  FindIDEController : VirtualDeviceList -> string -> result BaseVirtualDevice;
  NewKey : VirtualDeviceList -> Z;
  AssignController :
    VirtualDeviceList -> BaseVirtualDevice -> BaseVirtualDevice ->
    BaseVirtualDevice;
  CreateEthernetCard : string -> BackingInfo -> result BaseVirtualDevice;
  CreateCdrom : VirtualDeviceList -> BaseVirtualDevice -> result BaseVirtualDevice;
  InsertIso : VirtualDeviceList -> BaseVirtualDevice -> string -> BaseVirtualDevice;
  DeviceList_ConfigSpec :
    VirtualDeviceList -> string ->
    list VirtualDeviceConfigSpec * option error
}.

(* ================================================================= *)
(** ** The monad of driver operations *)

Definition M (A : Type) : Type := World -> outcome A * World.

Definition ret {A} (a : A) : M A := fun w => (Returns (Ok a), w).

Definition fail {A} (e : error) : M A := fun w => (Returns (Err e), w).

Definition panic {A} (msg : string) : M A := fun w => (Panics msg, w).

(** [x, err := m; if err != nil { return nil, err }; k x] *)
Definition bind {A B} (m : M A) (k : A -> M B) : M B :=
  fun w =>
    match m w with
    | (Returns (Ok a), w') => k a w'
    | (Returns (Err e), w') => (Returns (Err e), w')
    | (Panics s, w') => (Panics s, w')
    end.

(** A value computed locally, with Go's [err != nil] check. *)
Definition lift {A} (r : result A) : M A := fun w => (Returns r, w).

Declare Scope driver_scope.
Delimit Scope driver_scope with driver.
Notation "x <- m ;; k" := (bind m (fun x => k))
  (at level 61, m at next level, right associativity) : driver_scope.
Notation "m ;;; k" := (bind m (fun _ => k))
  (at level 61, right associativity) : driver_scope.
Local Open Scope driver_scope.

(** [_, err = m; return err] *)
Definition discard {A} (m : M A) : M unit := _ <- m ;; ret tt.

(** The events an operation appended to a trace that started as [before]. *)
Definition new_events (before after : World) : list Event :=
  skipn (List.length (trace before)) (trace after).

(** An operation run in a world: how it ended and the calls it made. *)
Definition run {A} (m : M A) (w : World) : outcome A * list Event :=
  (fst (m w), new_events w (snd (m w))).

Section Driver.

Variable remote : Remote.
Variable lib : DeviceLib.

(** A call that leaves the process: answered from the history, recorded,
    and charged its latency. *)
Definition advance (ev : Event) (w : World) : World :=
  {| trace := trace w ++ [ev]; clock := clock w + latency remote w ev |}.

Definition remote_call {A} (ev : Event) (answer : World -> A) (w : World)
  : A * World :=
  (answer w, advance ev w).

Definition call {A} (ev : Event) (answer : World -> result A) : M A :=
  fun w => let (r, w') := remote_call ev answer w in (Returns r, w').

(** [time.Sleep(d)] *)
Definition Sleep (d : Z) (w : World) : World :=
  {| trace := trace w ++ [EvSleep d]; clock := clock w + d |}.

(** [taskInfo.Result.(types.ManagedObjectReference)] *)
Definition assert_ManagedObjectReference (a : AnyType)
  : M ManagedObjectReference :=
  match a with
  | AnyRef r => ret r
  | _ => panic "interface conversion: not a types.ManagedObjectReference"
  end.

(** [func (d *Driver) NewVM(ref)] *)
Definition NewVM (ref : ManagedObjectReference) : VirtualMachine :=
  {| vm := ref |}.

(* --------------------------------------------------------------- *)
(** *** Device composition (vm.go, lines 335-397) *)

(** [func addDisk(d, devices, config)] *)
Definition addDisk (devices : VirtualDeviceList) (config : CreateConfig.t)
  : result VirtualDeviceList :=
  match CreateSCSIController lib devices (CreateConfig.ControllerType config)
  with
  | Err e => Err e
  | Ok device =>
    let devices := devices ++ [device] in
    match FindDiskController lib devices (DeviceName lib devices device) with
    | Err e => Err e
    | Ok controller =>
      if CreateConfig.DiskSizeKB config =? 0 then
        Err (mkError "not implemented")
      else
        let disk :=
          VirtualDisk
            {| Key := NewKey lib devices;
               ControllerKey := 0;
               UnitNumber := None;
               Backing :=
                 Some (VirtualDiskFlatVer2BackingInfo
                         VirtualDiskModePersistent
                         (Some (CreateConfig.ThinProvisioned config))) |}
            (CreateConfig.DiskSizeKB config) in
        let disk := AssignController lib devices disk controller in
        Ok (devices ++ [disk])
    end
  end.

(** [func addNetwork(d, devices, config)] *)
Definition addNetwork (devices : VirtualDeviceList) (config : CreateConfig.t)
  : M VirtualDeviceList :=
  network <- call (EvNetworkOrDefault (CreateConfig.Network config))
                  (fun w => NetworkOrDefault remote w
                              (CreateConfig.Network config)) ;;
  backing <- call (EvEthernetCardBackingInfo network)
                  (fun w => EthernetCardBackingInfo remote w network) ;;
  device <- lift (CreateEthernetCard lib "" backing) ;;
  ret (devices ++ [device]).

(** [func addCdrom(d, devices, config, datastore)] *)
Definition addCdrom (devices : VirtualDeviceList) (config : CreateConfig.t)
           (datastore : Datastore) : result VirtualDeviceList :=
  match CreateIDEController lib devices with
  | Err e => Err e
  | Ok ideDevice => Ok (devices ++ [ideDevice])
  end.

(* --------------------------------------------------------------- *)
(** *** Creating a VM (vm.go, lines 74-144) *)

Definition vmxPath (config : CreateConfig.t) : string :=
  (CreateConfig.Name config ++ "/" ++ CreateConfig.Name config ++ ".vmx")%string.

(** [func (d *Driver) CreateVM(config)] *)
Definition CreateVM (config : CreateConfig.t) : M VirtualMachine :=
  let createSpec := CreateConfig_toConfigSpec config in
  folder <- call (EvFindFolder (CreateConfig.Folder config))
                 (fun w => FindFolder remote w (CreateConfig.Folder config)) ;;
  resourcePool <-
    call (EvFindResourcePool (CreateConfig.Host config)
                             (CreateConfig.ResourcePool config))
         (fun w => FindResourcePool remote w (CreateConfig.Host config)
                     (CreateConfig.ResourcePool config)) ;;
  host <- call (EvFindHost (CreateConfig.Host config))
               (fun w => FindHost remote w (CreateConfig.Host config)) ;;
  datastore <-
    call (EvFindDatastoreOrDefault (CreateConfig.Datastore config))
         (fun w => FindDatastoreOrDefault remote w
                     (CreateConfig.Datastore config)) ;;
  (if negb (CreateConfig.Force config) then
     found <- call (EvFileExists datastore (vmxPath config))
                   (fun w => Ok (FileExists remote w datastore
                                   (vmxPath config))) ;;
     if (found : bool) then
       let dsPath := DatastorePath remote datastore (vmxPath config) in
       fail (mkError ("File '" ++ dsPath ++ "' already exists")%string)
     else ret tt
   else ret tt) ;;;
  let devices : VirtualDeviceList := [] in
  devices <- lift (addCdrom devices config datastore) ;;
  devices <- lift (addDisk devices config) ;;
  devices <- addNetwork devices config ;;
  match DeviceList_ConfigSpec lib devices VirtualDeviceConfigSpecOperationAdd
  with
  | (_, Some err) => fail err
  | (deviceChange, None) =>
    let createSpec := ConfigSpec.with_DeviceChange deviceChange createSpec in
    let createSpec :=
      ConfigSpec.with_Files
        (Some {| VmPathName := ("[" ++ ds_Name datastore ++ "]")%string |})
        createSpec in
    task <- call (EvCreateVM folder createSpec resourcePool host)
                 (fun w => Folder_CreateVM remote w folder createSpec
                             resourcePool host) ;;
    taskInfo <- call (EvWaitForResult task)
                     (fun w => Task_WaitForResult remote w task) ;;
    vmRef <- assert_ManagedObjectReference (Result taskInfo) ;;
    ret (NewVM vmRef)
  end.

(* --------------------------------------------------------------- *)
(** *** Operations on a VM handle (vm.go, lines 146-293, 399-426) *)

(** [func (vm *VirtualMachine) Info(params ...string)] *)
Definition Info (v : VirtualMachine) (params : list string)
  : M MoVirtualMachine :=
  let p := match params with [] => ["*"] | _ => params end in
  call (EvProperties v p) (fun w => VM_Properties remote w v p).

(** [func (template *VirtualMachine) Clone(config)] *)
Definition Clone (template : VirtualMachine) (config : CloneConfig.t)
  : M VirtualMachine :=
  folder <- call (EvFindFolder (CloneConfig.Folder config))
                 (fun w => FindFolder remote w (CloneConfig.Folder config)) ;;
  let relocateSpec := {| Pool := None; RelocateDatastore := None;
                         DiskMoveType := "" |} in
  pool <- call (EvFindResourcePool (CloneConfig.Host config)
                                   (CloneConfig.ResourcePool config))
               (fun w => FindResourcePool remote w (CloneConfig.Host config)
                           (CloneConfig.ResourcePool config)) ;;
  let relocateSpec := {| Pool := Some pool;
                         RelocateDatastore := RelocateDatastore relocateSpec;
                         DiskMoveType := DiskMoveType relocateSpec |} in
  datastore <-
    call (EvFindDatastoreOrDefault (CloneConfig.Datastore config))
         (fun w => FindDatastoreOrDefault remote w
                     (CloneConfig.Datastore config)) ;;
  let relocateSpec := {| Pool := Pool relocateSpec;
                         RelocateDatastore := Some (ds datastore);
                         DiskMoveType := DiskMoveType relocateSpec |} in
  let cloneSpec := {| Location := relocateSpec; PowerOn := false;
                      Snapshot := None |} in
  cloneSpec <-
    (if CloneConfig.LinkedClone config then
       let cloneSpec :=
         {| Location := {| Pool := Pool (Location cloneSpec);
                           RelocateDatastore :=
                             RelocateDatastore (Location cloneSpec);
                           DiskMoveType := "createNewChildDiskBacking" |};
            PowerOn := PowerOn cloneSpec;
            Snapshot := Snapshot cloneSpec |} in
       tpl <- Info template ["snapshot"] ;;
       match mo_Snapshot tpl with
       | None =>
         fail (mkError "`linked_clone=true`, but template has no snapshots")
       | Some snapshot =>
         ret {| Location := Location cloneSpec;
                PowerOn := PowerOn cloneSpec;
                Snapshot := CurrentSnapshot snapshot |}
       end
     else ret cloneSpec) ;;
  task <- call (EvClone template folder (CloneConfig.Name config) cloneSpec)
               (fun w => VM_Clone remote w template folder
                           (CloneConfig.Name config) cloneSpec) ;;
  info <- call (EvWaitForResult task)
               (fun w => Task_WaitForResult remote w task) ;;
  vmRef <- assert_ManagedObjectReference (Result info) ;;
  ret (NewVM vmRef).

(** [func (vm *VirtualMachine) PowerOff()] *)
Definition PowerOff (v : VirtualMachine) : M unit :=
  state <- call (EvPowerState v) (fun w => VM_PowerState remote w v) ;;
  if String.eqb state VirtualMachinePowerStatePoweredOff then ret tt
  else
    task <- call (EvPowerOff v) (fun w => VM_PowerOff remote w v) ;;
    discard (call (EvWaitForResult task)
                  (fun w => Task_WaitForResult remote w task)).

Definition shutdown_timeout_error : error :=
  mkError "Timeout while waiting for machine to shut down.".

(** The [for] loop of [WaitForShutdown].  [shutdownTimer] is the instant
    at which the channel of [time.After] becomes ready; the [select] with
    a [default] branch takes the timer's branch exactly when it is.  The
    loop has no bound of its own in the source: [fuel] counts iterations,
    and [None] means that they were used up. *)
Fixpoint WaitForShutdown_loop (fuel : nat) (v : VirtualMachine)
         (shutdownTimer : Z) (w : World) : option (result unit * World) :=
  match fuel with
  | O => None
  | S fuel' =>
    match remote_call (EvPowerState v)
                      (fun w => VM_PowerState remote w v) w with
    | (Err e, w1) => Some (Err e, w1)
    | (Ok powerState, w1) =>
      if String.eqb powerState "poweredOff" then Some (Ok tt, w1)
      else if shutdownTimer <=? clock w1 then
        Some (Err shutdown_timeout_error, w1)
      else
        WaitForShutdown_loop fuel' v shutdownTimer (Sleep (1 * Second) w1)
    end
  end.

(** [func (vm *VirtualMachine) WaitForShutdown(timeout time.Duration)] *)
Definition WaitForShutdown (fuel : nat) (v : VirtualMachine) (timeout : Z)
           (w : World) : option (result unit * World) :=
  let shutdownTimer := clock w + timeout in
  WaitForShutdown_loop fuel v shutdownTimer w.

(** [func (vm *VirtualMachine) AddCdrom(isoPath)].  The error of
    [newDevices.ConfigSpec] is assigned to [err] and overwritten by the
    next statement without having been read. *)
Definition AddCdrom (v : VirtualMachine) (isoPath : string) : M unit :=
  devices <- call (EvDevice v) (fun w => VM_Device remote w v) ;;
  ide <- lift (FindIDEController lib devices "") ;;
  cdrom <- lift (CreateCdrom lib devices ide) ;;
  let cdrom := InsertIso lib devices cdrom isoPath in
  let newDevices : VirtualDeviceList := [cdrom] in
  let confSpec := ConfigSpec.zero in
  let (deviceChange, _) :=
    DeviceList_ConfigSpec lib newDevices VirtualDeviceConfigSpecOperationAdd in
  let confSpec := ConfigSpec.with_DeviceChange deviceChange confSpec in
  task <- call (EvReconfigure v confSpec)
               (fun w => VM_Reconfigure remote w v confSpec) ;;
  discard (call (EvWaitForResult task)
                (fun w => Task_WaitForResult remote w task)).

End Driver.

(* ================================================================= *)
(** ** An instance of the device helpers

    The helpers as govmomi's [object/device.go] defines them, on the device
    model above.  Fields of devices that the model does not carry (bus
    numbers, connect info) are not set.  Keys stay far away from the bounds
    of [int32] in every use below. *)

Module Govmomi.

Definition itoa (z : Z) : string := NilZero.string_of_int (Z.to_int z).

(** [VirtualDeviceList.Type] *)
Definition DeviceType (d : BaseVirtualDevice) : string :=
  match d with
  | VirtualIDEController _ => "ide"
  | VirtualSCSIController LsiLogic _ => "lsilogic"
  | VirtualSCSIController BusLogic _ => "buslogic"
  | VirtualSCSIController ParaVirtualSCSI _ => "pvscsi"
  | VirtualSCSIController LsiLogicSAS _ => "lsilogic-sas"
  | VirtualDisk _ _ => "disk"
  | VirtualEthernetCard _ _ => "ethernet"
  | VirtualCdrom _ => "cdrom"
  end.

(** [VirtualDeviceList.Name] *)
Definition Name (l : VirtualDeviceList) (d : BaseVirtualDevice) : string :=
  let v := GetVirtualDevice d in
  let unit := match UnitNumber v with Some u => u | None => 0 end in
  let key :=
    match d with
    | VirtualEthernetCard _ _ => itoa (unit - 7)
    | VirtualDisk _ _ => (itoa (ControllerKey v) ++ "-" ++ itoa unit)%string
    | _ => itoa (Key v)
    end in
  (DeviceType d ++ "-" ++ key)%string.

(** [VirtualDeviceList.NewKey] *)
Definition NewKey (l : VirtualDeviceList) : Z :=
  fold_left (fun key d => if Key (GetVirtualDevice d) <? key
                          then Key (GetVirtualDevice d) else key)
            l (-200) - 1.

(** [SCSIControllerTypes], selected by type name. *)
Definition scsi_kind_of_name (name : string) : option SCSIKind :=
  if String.eqb name "lsilogic" then Some LsiLogic
  else if String.eqb name "buslogic" then Some BusLogic
  else if String.eqb name "pvscsi" then Some ParaVirtualSCSI
  else if String.eqb name "lsilogic-sas" then Some LsiLogicSAS
  else None.

(** [VirtualDeviceList.CreateSCSIController] *)
Definition CreateSCSIController (l : VirtualDeviceList) (name : string)
  : result BaseVirtualDevice :=
  let name := if (String.eqb name "scsi" || String.eqb name "")%bool
              then "lsilogic" else name in
  match scsi_kind_of_name name with
  | Some kind =>
    Ok (VirtualSCSIController kind
          {| Key := NewKey l; ControllerKey := 0; UnitNumber := None;
             Backing := None |})
  | None =>
    Err (mkError ("unknown SCSI controller type '" ++ name ++ "'")%string)
  end.

(** [VirtualDeviceList.CreateIDEController] *)
Definition CreateIDEController (l : VirtualDeviceList)
  : result BaseVirtualDevice :=
  Ok (VirtualIDEController
        {| Key := NewKey l; ControllerKey := 0; UnitNumber := None;
           Backing := None |}).

Definition is_controller (d : BaseVirtualDevice) : bool :=
  (is_ide_controller d || is_scsi_controller d)%bool.

(** [VirtualDeviceList.Find] *)
Definition Find (l : VirtualDeviceList) (name : string)
  : option BaseVirtualDevice :=
  find (fun d => String.eqb (Name l d) name) l.

Definition pick (p : BaseVirtualDevice -> bool) (what : string)
           (l : VirtualDeviceList) : result BaseVirtualDevice :=
  match find p l with
  | Some c => Ok c
  | None => Err (mkError ("no available " ++ what ++ " controller")%string)
  end.

(** [VirtualDeviceList.FindDiskController] *)
Definition FindDiskController (l : VirtualDeviceList) (name : string)
  : result BaseVirtualDevice :=
  if String.eqb name "ide" then pick is_ide_controller "IDE" l
  else if (String.eqb name "scsi" || String.eqb name "")%bool
  then pick is_scsi_controller "SCSI" l
  else
    match Find l name with
    | Some c =>
      if is_controller c then Ok c
      else Err (mkError (name ++ " not found")%string)
    | None => Err (mkError (name ++ " not found")%string)
    end.

(** [VirtualDeviceList.FindIDEController] *)
Definition FindIDEController (l : VirtualDeviceList) (name : string)
  : result BaseVirtualDevice :=
  if String.eqb name "" then pick is_ide_controller "IDE" l
  else
    match Find l name with
    | Some c =>
      if is_ide_controller c then Ok c
      else Err (mkError (name ++ " is not an IDE controller")%string)
    | None => Err (mkError ("device '" ++ name ++ "' not found")%string)
    end.

(** [VirtualDeviceList.newUnitNumber]: the first of the units 0..29 that no
    device on the controller occupies; a SCSI controller occupies unit 7
    itself. *)
Definition unit_used (l : VirtualDeviceList) (c : BaseVirtualDevice)
           (u : Z) : bool :=
  ((is_scsi_controller c && (u =? 7))
   || existsb (fun d =>
                 (ControllerKey (GetVirtualDevice d)
                  =? Key (GetVirtualDevice c))
                 && match UnitNumber (GetVirtualDevice d) with
                    | Some n => n =? u
                    | None => false
                    end) l)%bool.

Definition newUnitNumber (l : VirtualDeviceList) (c : BaseVirtualDevice)
  : Z :=
  match find (fun u => negb (unit_used l c u))
             (map Z.of_nat (seq 0 30)) with
  | Some u => u
  | None => -1
  end.

Definition set_VirtualDevice (f : VirtualDevice -> VirtualDevice)
           (d : BaseVirtualDevice) : BaseVirtualDevice :=
  match d with
  | VirtualIDEController v => VirtualIDEController (f v)
  | VirtualSCSIController k v => VirtualSCSIController k (f v)
  | VirtualDisk v cap => VirtualDisk (f v) cap
  | VirtualEthernetCard k v => VirtualEthernetCard k (f v)
  | VirtualCdrom v => VirtualCdrom (f v)
  end.

(** [VirtualDeviceList.AssignController] *)
Definition AssignController (l : VirtualDeviceList)
           (device c : BaseVirtualDevice) : BaseVirtualDevice :=
  set_VirtualDevice
    (fun v => {| Key := if Key v =? 0 then -1 else Key v;
                 ControllerKey := Key (GetVirtualDevice c);
                 UnitNumber := Some (newUnitNumber l c);
                 Backing := Backing v |})
    device.

Definition EthernetCardTypes : list string :=
  ["e1000"; "e1000e"; "vmxnet2"; "vmxnet3"; "pcnet32"; "sriov"].

(** [VirtualDeviceList.CreateEthernetCard] *)
Definition CreateEthernetCard (name : string) (backing : BackingInfo)
  : result BaseVirtualDevice :=
  let name := if String.eqb name "" then "e1000" else name in
  if existsb (String.eqb name) EthernetCardTypes then
    Ok (VirtualEthernetCard name
          {| Key := -1; ControllerKey := 0; UnitNumber := None;
             Backing := Some backing |})
  else
    Err (mkError ("unknown ethernet card type '" ++ name ++ "'")%string).

(** [VirtualDeviceList.CreateCdrom] *)
Definition CreateCdrom (l : VirtualDeviceList) (c : BaseVirtualDevice)
  : result BaseVirtualDevice :=
  Ok (AssignController l (VirtualCdrom VirtualDevice_zero) c).

(** [VirtualDeviceList.InsertIso] *)
Definition InsertIso (l : VirtualDeviceList) (device : BaseVirtualDevice)
           (iso : string) : BaseVirtualDevice :=
  set_VirtualDevice
    (fun v => {| Key := Key v; ControllerKey := ControllerKey v;
                 UnitNumber := UnitNumber v;
                 Backing := Some (CdromIsoBackingInfo iso) |})
    device.

(** [VirtualDeviceList.ConfigSpec]: one change per device; it has no
    failing path. *)
Definition ConfigSpec (l : VirtualDeviceList) (op : string)
  : list VirtualDeviceConfigSpec * option error :=
  (map (fun d => {| Operation := op; Device := d |}) l, None).

Definition lib : DeviceLib :=
  mkLib CreateSCSIController CreateIDEController Name FindDiskController
        FindIDEController NewKey AssignController CreateEthernetCard
        CreateCdrom InsertIso ConfigSpec.

End Govmomi.

(* ================================================================= *)
(** ** A remote endpoint to run the operations against

    Every lookup succeeds and every task finishes; whether the backing file
    exists, which snapshots the VM has, the power state it reports and the
    latency of a call are settings. *)

Module Endpoint.

Record Settings : Type := mkSettings {
  file_exists : bool;
  snapshot : option VirtualMachineSnapshotInfo;
  power_state : World -> string;
  call_latency : Z
}.

Definition task_ref : Task := mkRef "Task" "task-1".
Definition vm_ref : ManagedObjectReference := mkRef "VirtualMachine" "vm-1".
Definition ide0 : BaseVirtualDevice :=
  VirtualIDEController
    {| Key := 200; ControllerKey := 0; UnitNumber := None; Backing := None |}.

Definition remote (s : Settings) : Remote :=
  {| FindFolder := fun _ name => Ok (mkRef "Folder" name);
     FindResourcePool := fun _ _ name => Ok (mkRef "ResourcePool" name);
     FindHost := fun _ name => Ok (mkRef "HostSystem" name);
     FindDatastoreOrDefault :=
       fun _ name => Ok (mkDatastore (mkRef "Datastore" name) name);
     FileExists := fun _ _ _ => file_exists s;
     DatastorePath :=
       fun d path => ("[" ++ ds_Name d ++ "] " ++ path)%string;
     NetworkOrDefault := fun _ name => Ok (mkRef "Network" name);
     EthernetCardBackingInfo :=
       fun _ n => Ok (EthernetCardBacking (ref_Value n));
     Folder_CreateVM := fun _ _ _ _ _ => Ok task_ref;
     Task_WaitForResult := fun _ _ => Ok {| Result := AnyRef vm_ref |};
     VM_Properties :=
       fun _ _ _ => Ok {| mo_Name := "tpl1"; mo_Snapshot := snapshot s |};
     VM_Clone := fun _ _ _ _ _ => Ok task_ref;
     VM_PowerState := fun w _ => Ok (power_state s w);
     VM_PowerOff := fun _ _ => Ok task_ref;
     VM_Device := fun _ _ => Ok [ide0];
     VM_Reconfigure := fun _ _ _ => Ok task_ref;
     latency := fun _ _ => call_latency s |}.

Definition start : World := {| trace := []; clock := 0 |}.

Definition always_on : Settings :=
  {| file_exists := false; snapshot := None;
     power_state := fun _ => "poweredOn"; call_latency := 0 |}.

Definition already_off : Settings :=
  {| file_exists := false; snapshot := None;
     power_state := fun _ => "poweredOff"; call_latency := 0 |}.

Definition file_present : Settings :=
  {| file_exists := true; snapshot := None;
     power_state := fun _ => "poweredOn"; call_latency := 0 |}.

Definition snap1 : ManagedObjectReference :=
  mkRef "VirtualMachineSnapshot" "snapshot-1".

Definition with_snapshot : Settings :=
  {| file_exists := false;
     snapshot := Some {| CurrentSnapshot := Some snap1 |};
     power_state := fun _ => "poweredOn"; call_latency := 0 |}.

(** The configuration of the specification's end-to-end scenario. *)
Definition tpl1 : CreateConfig.t :=
  {| CreateConfig.HardwareConfig := HardwareConfig.mk 2 0 0 2048 0 false;
     CreateConfig.DiskConfig :=
       DiskConfig.mk (20 * 1024 * 1024) true "pvscsi";
     CreateConfig.Annotation := "";
     CreateConfig.Name := "tpl1";
     CreateConfig.Folder := "";
     CreateConfig.Host := "esx-1";
     CreateConfig.ResourcePool := "";
     CreateConfig.Datastore := "datastore1";
     CreateConfig.GuestOS := "otherGuest";
     CreateConfig.Network := "VM Network";
     CreateConfig.Force := false |}.

Definition with_DiskSizeKB (size : Z) (c : CreateConfig.t) : CreateConfig.t :=
  CreateConfig.mk (CreateConfig.HardwareConfig c)
    (DiskConfig.mk size (CreateConfig.ThinProvisioned c)
                   (CreateConfig.ControllerType c))
    (CreateConfig.Annotation c) (CreateConfig.Name c)
    (CreateConfig.Folder c) (CreateConfig.Host c)
    (CreateConfig.ResourcePool c) (CreateConfig.Datastore c)
    (CreateConfig.GuestOS c) (CreateConfig.Network c)
    (CreateConfig.Force c).

Definition clone1 (linked : bool) : CloneConfig.t :=
  {| CloneConfig.Name := "clone1"; CloneConfig.Folder := "";
     CloneConfig.Host := "esx-1"; CloneConfig.ResourcePool := "";
     CloneConfig.Datastore := "datastore1";
     CloneConfig.LinkedClone := linked |}.

Definition template : VirtualMachine := mkVM vm_ref.

End Endpoint.

(* ================================================================= *)
(** ** Notions used in the statements *)




(** A helper library whose [ConfigSpec] fails. *)
Definition lib_failing_ConfigSpec : DeviceLib :=
  mkLib Govmomi.CreateSCSIController Govmomi.CreateIDEController Govmomi.Name
        Govmomi.FindDiskController Govmomi.FindIDEController Govmomi.NewKey
        Govmomi.AssignController Govmomi.CreateEthernetCard
        Govmomi.CreateCdrom Govmomi.InsertIso
        (fun _ _ => ([], Some (mkError "cannot build device changes"))).

(** What the driver relies on in the helpers: they create devices of the
    class asked for, names tell IDE from SCSI controllers, looking a
    controller up by its name in a list where no other device bears that
    name finds it, and assigning a disk to a controller records the
    controller's key in the disk and leaves capacity and backing alone. *)
Record DeviceLib_ok (lib : DeviceLib) : Prop := mkLibOk {
  ide_is_ide : forall l d,
    CreateIDEController lib l = Ok d -> is_ide_controller d = true;
  scsi_is_scsi : forall l n d,
    CreateSCSIController lib l n = Ok d -> is_scsi_controller d = true;
  card_is_card : forall n b d,
    CreateEthernetCard lib n b = Ok d -> is_ethernet_card d = true;
  names_differ : forall l a b,
    is_ide_controller a = true -> is_scsi_controller b = true ->
    DeviceName lib l a <> DeviceName lib l b;
  find_by_name : forall l d c,
    is_scsi_controller d = true ->
    (forall d', In d' l ->
                DeviceName lib (l ++ [d]) d' <> DeviceName lib (l ++ [d]) d) ->
    FindDiskController lib (l ++ [d]) (DeviceName lib (l ++ [d]) d) = Ok c ->
    c = d;
  assign_binds : forall l v cap c,
    exists v',
      AssignController lib l (VirtualDisk v cap) c = VirtualDisk v' cap
      /\ ControllerKey v' = Key (GetVirtualDevice c)
      /\ Backing v' = Backing v
}.

(** The disk [addDisk] builds before it assigns it to the controller. *)
Definition new_disk (lib : DeviceLib) (devices : VirtualDeviceList)
           (config : CreateConfig.t) : BaseVirtualDevice :=
  VirtualDisk
    {| Key := NewKey lib devices;
       ControllerKey := 0;
       UnitNumber := None;
       Backing :=
         Some (VirtualDiskFlatVer2BackingInfo
                 VirtualDiskModePersistent
                 (Some (CreateConfig.ThinProvisioned config))) |}
    (CreateConfig.DiskSizeKB config).

(** The calls of a wait that slept [sleeps] times: a poll of the power
    state, then a one-second sleep and another poll for each sleep. *)
Fixpoint poll_events (v : VirtualMachine) (sleeps : nat) : list Event :=
  match sleeps with
  | O => [EvPowerState v]
  | S k => EvPowerState v :: EvSleep (1 * Second) :: poll_events v k
  end.

(* ================================================================= *)
(** ** Reconfiguring hardware (vm.go, lines 225-235) *)


(* ================================================================= *)
(** ** Kinds of calls and devices *)

Definition is_properties (e : Event) : bool :=
  match e with EvProperties _ _ => true | _ => false end.

Definition is_find_host (e : Event) : bool :=
  match e with EvFindHost _ => true | _ => false end.

Definition is_network_lookup (e : Event) : bool :=
  match e with EvNetworkOrDefault _ => true | _ => false end.

Definition is_reconfigure_task (e : Event) : bool :=
  match e with EvReconfigure _ _ => true | _ => false end.

Definition is_wait (e : Event) : bool :=
  match e with EvWaitForResult _ => true | _ => false end.

Definition is_cdrom (b : BaseVirtualDevice) : bool :=
  match b with VirtualCdrom _ => true | _ => false end.

(** The scenario's configuration with the overwrite flag set. *)
Definition forced_tpl1 : CreateConfig.t :=
  CreateConfig.mk (CreateConfig.HardwareConfig Endpoint.tpl1)
    (CreateConfig.DiskConfig Endpoint.tpl1)
    (CreateConfig.Annotation Endpoint.tpl1) (CreateConfig.Name Endpoint.tpl1)
    (CreateConfig.Folder Endpoint.tpl1) (CreateConfig.Host Endpoint.tpl1)
    (CreateConfig.ResourcePool Endpoint.tpl1)
    (CreateConfig.Datastore Endpoint.tpl1)
    (CreateConfig.GuestOS Endpoint.tpl1) (CreateConfig.Network Endpoint.tpl1)
    true.

(** A VM that reports [poweredOn] until two calls have been made and
    [poweredOff] from then on. *)
Definition off_after_two_calls : Endpoint.Settings :=
  {| Endpoint.file_exists := false;
     Endpoint.snapshot := None;
     Endpoint.power_state :=
       fun w => if (2 <=? List.length (trace w))%nat
                then "poweredOff" else "poweredOn";
     Endpoint.call_latency := 0 |}.

(** Inputs of the evaluations below. *)
Definition hw_limit0 : HardwareConfig.t := HardwareConfig.mk 2 1000 0 2048 512 false.
Definition hw_limit1 : HardwareConfig.t := HardwareConfig.with_CPULimit 1 hw_limit0.
Definition negative_disk : CreateConfig.t :=
  Endpoint.with_DiskSizeKB (-1) Endpoint.tpl1.

(* ================================================================= *)
(** * Properties *)

(** ** Spec compiler *)

Lemma HardwareConfig_toConfigSpec_cpu (c : HardwareConfig.t) :
  ConfigSpec.CpuAllocation (HardwareConfig_toConfigSpec c)
  = Some {| Reservation := HardwareConfig.CPUReservation c;
            Limit := HardwareConfig.CPULimit c |}.
Proof. reflexivity. Qed.

(** C1, as stated, fails: a CPU limit of 0 is compiled to a CPU allocation
    whose limit is the literal 0, which is not vSphere's "unlimited" value;
    so it is false that a zero limit never compiles to a literal zero. *)
Lemma zero_limit_compiles_to_literal_zero :
  HardwareConfig.CPULimit hw_limit0 = 0
  /\ ConfigSpec.CpuAllocation (HardwareConfig_toConfigSpec hw_limit0)
     = Some {| Reservation := 1000; Limit := 0 |}
  /\ limit_is_unlimited {| Reservation := 1000; Limit := 0 |} = false
  /\ ~ (forall c r,
           HardwareConfig.CPULimit c = 0 ->
           ConfigSpec.CpuAllocation (HardwareConfig_toConfigSpec c) = Some r ->
           Limit r <> 0).
Proof.
  repeat split.
  intros H.
  apply (H hw_limit0 {| Reservation := 1000; Limit := 0 |}); reflexivity.
Qed.

(** C1, amended: the CPU limit is copied unchanged into the CPU allocation
    of the output, so a limit of 0 yields the limit field 0 (and no other
    marker); the outputs for limit 0 and for limit 1 of an otherwise equal
    HardwareConfig differ. *)
Theorem toConfigSpec_limit_is_copied (c : HardwareConfig.t) :
  (forall l r,
      ConfigSpec.CpuAllocation
        (HardwareConfig_toConfigSpec (HardwareConfig.with_CPULimit l c))
      = Some r <-> r = {| Reservation := HardwareConfig.CPUReservation c;
                          Limit := l |})
  /\ HardwareConfig_toConfigSpec (HardwareConfig.with_CPULimit 0 c)
     <> HardwareConfig_toConfigSpec (HardwareConfig.with_CPULimit 1 c).
Proof.
  split.
  - intros l r. rewrite HardwareConfig_toConfigSpec_cpu. simpl.
    split; [intros H; injection H; auto | intros ->; reflexivity].
  - intros H.
    apply (f_equal ConfigSpec.CpuAllocation) in H.
    rewrite !HardwareConfig_toConfigSpec_cpu in H. simpl in H.
    discriminate H.
Qed.

Lemma toConfigSpec_limit_is_copied_witness :
  HardwareConfig_toConfigSpec hw_limit0 <> HardwareConfig_toConfigSpec hw_limit1.
Proof. exact (proj2 (toConfigSpec_limit_is_copied hw_limit0)). Defined.

(** Nothing is lost or rescaled: the compiled specification determines the
    HardwareConfig it came from. *)
Lemma HardwareConfig_toConfigSpec_injective (h1 h2 : HardwareConfig.t) :
  HardwareConfig_toConfigSpec h1 = HardwareConfig_toConfigSpec h2 -> h1 = h2.
Proof.
  destruct h1, h2. unfold HardwareConfig_toConfigSpec. simpl.
  intros H. injection H. intros. subst. reflexivity.
Qed.



(** ** Device composer: [addDisk] *)

(** C2, as stated, fails: with the disk size -1 and a supported controller
    type, [addDisk] returns no error and appends a disk of capacity -1. *)
Lemma addDisk_accepts_negative_size :
  CreateConfig.DiskSizeKB negative_disk <= 0
  /\ addDisk Govmomi.lib [] negative_disk
     = Ok [VirtualSCSIController ParaVirtualSCSI
             {| Key := -201; ControllerKey := 0; UnitNumber := None;
                Backing := None |};
           VirtualDisk
             {| Key := -202; ControllerKey := -201; UnitNumber := Some 0;
                Backing := Some (VirtualDiskFlatVer2BackingInfo "persistent"
                                   (Some true)) |}
             (-1)].
Proof. split; [ vm_compute; discriminate | reflexivity ]. Qed.

(** C2, amended: for a disk size of exactly 0, [addDisk] returns an error
    and no device list, whatever the controller type and the helpers do;
    when the controller could be created and found, that error is "not
    implemented". *)
Theorem addDisk_zero_size_fails (lib : DeviceLib) (devices : VirtualDeviceList)
        (config : CreateConfig.t) :
  CreateConfig.DiskSizeKB config = 0 ->
  (exists e, addDisk lib devices config = Err e)
  /\ (forall device controller,
         CreateSCSIController lib devices (CreateConfig.ControllerType config)
         = Ok device ->
         FindDiskController lib (devices ++ [device])
           (DeviceName lib (devices ++ [device]) device) = Ok controller ->
         addDisk lib devices config = Err (mkError "not implemented")).
Proof.
  intros Hsize. unfold addDisk. rewrite Hsize. simpl.
  split.
  - destruct (CreateSCSIController lib devices _) as [device|e]; eauto.
    destruct (FindDiskController lib _ _) as [controller|e]; eauto.
  - intros device controller -> ->. reflexivity.
Qed.

Lemma addDisk_zero_size_fails_witness :
  addDisk Govmomi.lib [] (Endpoint.with_DiskSizeKB 0 Endpoint.tpl1)
  = Err (mkError "not implemented").
Proof.
  pose proof (addDisk_zero_size_fails Govmomi.lib []
                (Endpoint.with_DiskSizeKB 0 Endpoint.tpl1) eq_refl)
    as [_ H].
  eapply H; reflexivity.
Defined.

(** ** Traces *)

Lemma new_events_extend (w : World) (evs : list Event) (c : Z) :
  new_events w {| trace := trace w ++ evs; clock := c |} = evs.
Proof.
  unfold new_events. simpl.
  rewrite skipn_app, skipn_all, Nat.sub_diag. reflexivity.
Qed.

Lemma new_events_app (w w' : World) (evs : list Event) :
  trace w' = trace w ++ evs -> new_events w w' = evs.
Proof.
  intros H. destruct w' as [t c]. simpl in H. subst t.
  apply new_events_extend.
Qed.

(** Unfolds the operations of the monad. *)
Ltac unfold_monad :=
  unfold run, discard in *;
  unfold bind, call, remote_call, advance, lift, ret, fail, panic,
    assert_ManagedObjectReference in *.

(** Splits on the next answer of the remote end or of a helper. *)
Ltac next_answer :=
  match goal with
  | |- context [match ?x with Ok _ => _ | Err _ => _ end] =>
    let E := fresh "E" in destruct x eqn:E
  | |- context [if ?b then _ else _] =>
    let E := fresh "E" in destruct b eqn:E
  | |- context [match ?x with AnyRef _ => _ | AnyString _ => _ | AnyNil => _ end] =>
    let E := fresh "E" in destruct x eqn:E
  | |- context [match ?x with Some _ => _ | None => _ end] =>
    let E := fresh "E" in destruct x eqn:E
  | |- context [let (_, _) := ?x in _] =>
    let E := fresh "E" in destruct x eqn:E
  end.

(** Reads the events of a finished run off its trace. *)
Ltac read_events :=
  simpl; rewrite <- ?app_assoc; simpl; rewrite ?new_events_extend.

(** ** Creating a VM *)


Example CreateVM_existing_file_run :
  run (CreateVM (Endpoint.remote Endpoint.file_present) Govmomi.lib
                Endpoint.tpl1) Endpoint.start
  = (Returns (Err (mkError "File '[datastore1] tpl1/tpl1.vmx' already exists")),
     [EvFindFolder ""; EvFindResourcePool "esx-1" ""; EvFindHost "esx-1";
      EvFindDatastoreOrDefault "datastore1";
      EvFileExists (mkDatastore (mkRef "Datastore" "datastore1") "datastore1")
                   "tpl1/tpl1.vmx"]).
Proof. reflexivity. Qed.



(** ** Cloning *)

(** What [Clone] submits, whatever the remote end answers: at most one clone
    task, for the template and the configured name, never powered on; a
    linked clone carries the disk move type and the current snapshot that
    [Info] reported, an ordinary clone carries neither. *)
Lemma Clone_submits (remote : Remote) (template : VirtualMachine)
      (config : CloneConfig.t) (w : World) r evs :
  run (Clone remote template config) w = (r, evs) ->
  forall v f name spec,
    In (EvClone v f name spec) evs ->
    v = template
    /\ name = CloneConfig.Name config
    /\ PowerOn spec = false
    /\ (CloneConfig.LinkedClone config = false ->
        DiskMoveType (Location spec) = "" /\ Snapshot spec = None)
    /\ (CloneConfig.LinkedClone config = true ->
        DiskMoveType (Location spec) = "createNewChildDiskBacking"
        /\ exists w0 info snapshot,
            VM_Properties remote w0 template ["snapshot"] = Ok info
            /\ mo_Snapshot info = Some snapshot
            /\ Snapshot spec = CurrentSnapshot snapshot).
Proof.
  unfold Clone, Info. unfold_monad. simpl.
  repeat (next_answer; simpl); read_events;
    intros Hrun; injection Hrun as <- <-;
    intros ? ? ? ? Hin; simpl in Hin;
    repeat match goal with
           | H : _ \/ _ |- _ => destruct H as [H|H]
           | H : False |- _ => destruct H
           | H : _ = EvClone _ _ _ _ |- _ =>
             first [ discriminate H | injection H as <- <- <- <- ]
           end;
    repeat split; simpl; try congruence; eauto 10.
Qed.

(** A clone that returned a VM went through a submitted clone task. *)
Lemma Clone_success_submitted (remote : Remote) (template : VirtualMachine)
      (config : CloneConfig.t) (w : World) v' evs :
  run (Clone remote template config) w = (Returns (Ok v'), evs) ->
  existsb is_clone_task evs = true.
Proof.
  unfold Clone, Info. unfold_monad. simpl.
  repeat (next_answer; simpl); read_events;
    intros Hrun; try discriminate Hrun; inversion Hrun; reflexivity.
Qed.



(** C10: whatever the configuration and whatever the remote end answers,
    every clone task that [Clone] submits has [PowerOn = false]; and a clone
    that returns a VM did submit such a task. *)
Theorem Clone_never_powers_on (remote : Remote) (template : VirtualMachine)
        (config : CloneConfig.t) (w : World) r evs :
  run (Clone remote template config) w = (r, evs) ->
  (forall v f name spec,
      In (EvClone v f name spec) evs -> PowerOn spec = false)
  /\ (forall v', r = Returns (Ok v') -> existsb is_clone_task evs = true).
Proof.
  intros Hrun. split.
  - intros v f name spec Hin.
    destruct (Clone_submits _ _ _ _ _ _ Hrun _ _ _ _ Hin) as (_ & _ & H & _).
    exact H.
  - intros v' ->. exact (Clone_success_submitted _ _ _ _ _ _ Hrun).
Qed.

Lemma Clone_never_powers_on_witness :
  (forall v f name spec,
      In (EvClone v f name spec)
         (snd (run (Clone (Endpoint.remote Endpoint.always_on)
                          Endpoint.template (Endpoint.clone1 false))
                   Endpoint.start)) ->
      PowerOn spec = false)
  /\ (forall v',
         fst (run (Clone (Endpoint.remote Endpoint.always_on)
                         Endpoint.template (Endpoint.clone1 false))
                  Endpoint.start) = Returns (Ok v') ->
         existsb is_clone_task
                 (snd (run (Clone (Endpoint.remote Endpoint.always_on)
                                  Endpoint.template (Endpoint.clone1 false))
                           Endpoint.start)) = true).
Proof.
  exact (Clone_never_powers_on (Endpoint.remote Endpoint.always_on)
           Endpoint.template (Endpoint.clone1 false) Endpoint.start _ _
           eq_refl).
Defined.

Example Clone_full_run :
  run (Clone (Endpoint.remote Endpoint.always_on) Endpoint.template
             (Endpoint.clone1 false)) Endpoint.start
  = (Returns (Ok (mkVM Endpoint.vm_ref)),
     [EvFindFolder ""; EvFindResourcePool "esx-1" "";
      EvFindDatastoreOrDefault "datastore1";
      EvClone Endpoint.template (mkRef "Folder" "") "clone1"
              {| Location := {| Pool := Some (mkRef "ResourcePool" "");
                                RelocateDatastore :=
                                  Some (mkRef "Datastore" "datastore1");
                                DiskMoveType := "" |};
                 PowerOn := false;
                 Snapshot := None |};
      EvWaitForResult Endpoint.task_ref]).
Proof. reflexivity. Qed.

(** ** Powering off *)

(** C5: [PowerOff] asks for the power state before anything else.  If the
    answer is [poweredOff], it returns success and has made no other call;
    if the answer is another state, it submits the power-off task next and,
    when that was accepted, waits for it and returns what the wait
    returned; if asking failed, it returns that error. *)
Theorem PowerOff_reads_state_first (remote : Remote) (v : VirtualMachine)
        (w : World) :
  let w1 := advance remote (EvPowerState v) w in
  let w2 := advance remote (EvPowerOff v) w1 in
  (exists r rest, run (PowerOff remote v) w = (r, EvPowerState v :: rest))
  /\ (VM_PowerState remote w v = Ok VirtualMachinePowerStatePoweredOff ->
      run (PowerOff remote v) w = (Returns (Ok tt), [EvPowerState v]))
  /\ (forall e, VM_PowerState remote w v = Err e ->
                run (PowerOff remote v) w = (Returns (Err e), [EvPowerState v]))
  /\ (forall state,
         VM_PowerState remote w v = Ok state ->
         state <> VirtualMachinePowerStatePoweredOff ->
         (forall e, VM_PowerOff remote w1 v = Err e ->
                    run (PowerOff remote v) w
                    = (Returns (Err e), [EvPowerState v; EvPowerOff v]))
         /\ (forall task,
                VM_PowerOff remote w1 v = Ok task ->
                run (PowerOff remote v) w
                = (Returns match Task_WaitForResult remote w2 task with
                           | Ok _ => Ok tt
                           | Err e => Err e
                           end,
                   [EvPowerState v; EvPowerOff v; EvWaitForResult task]))).
Proof.
  intros w1 w2. subst w1 w2.
  unfold PowerOff. unfold_monad. simpl.
  split; [|split; [|split]].
  - repeat (next_answer; simpl); read_events; eauto.
  - intros ->. simpl. read_events. reflexivity.
  - intros e ->. read_events. reflexivity.
  - intros state Hstate Hon. rewrite Hstate.
    apply String.eqb_neq in Hon. rewrite Hon.
    split.
    + intros e ->. read_events. reflexivity.
    + intros task ->.
      destruct (Task_WaitForResult _ _ _); read_events; reflexivity.
Qed.

Lemma PowerOff_reads_state_first_witness :
  run (PowerOff (Endpoint.remote Endpoint.already_off) Endpoint.template)
      Endpoint.start
  = (Returns (Ok tt), [EvPowerState Endpoint.template])
  /\ run (PowerOff (Endpoint.remote Endpoint.always_on) Endpoint.template)
         Endpoint.start
     = (Returns (Ok tt),
        [EvPowerState Endpoint.template; EvPowerOff Endpoint.template;
         EvWaitForResult Endpoint.task_ref]).
Proof.
  split.
  - apply (PowerOff_reads_state_first
             (Endpoint.remote Endpoint.already_off) Endpoint.template
             Endpoint.start).
    reflexivity.
  - apply (proj2 (proj2 (proj2 (PowerOff_reads_state_first
                                  (Endpoint.remote Endpoint.always_on)
                                  Endpoint.template Endpoint.start)))
             "poweredOn" eq_refl).
    + discriminate.
    + reflexivity.
Defined.

(** ** Inserting an ISO *)

(** C9: once the devices were fetched, the IDE controller found and the
    CD-ROM created, [AddCdrom] submits the reconfigure task whatever
    [ConfigSpec] returned as its error, with the device changes that came
    along with it, and its own result is that of the task alone. *)
Theorem AddCdrom_ignores_ConfigSpec_error (remote : Remote) (lib : DeviceLib)
        (v : VirtualMachine) (isoPath : string) (w : World)
        devices ide cdrom deviceChange (err : option error) :
  VM_Device remote w v = Ok devices ->
  FindIDEController lib devices "" = Ok ide ->
  CreateCdrom lib devices ide = Ok cdrom ->
  DeviceList_ConfigSpec lib [InsertIso lib devices cdrom isoPath]
                        VirtualDeviceConfigSpecOperationAdd
  = (deviceChange, err) ->
  let confSpec := ConfigSpec.with_DeviceChange deviceChange ConfigSpec.zero in
  let w1 := advance remote (EvDevice v) w in
  let w2 := advance remote (EvReconfigure v confSpec) w1 in
  run (AddCdrom remote lib v isoPath) w
  = match VM_Reconfigure remote w1 v confSpec with
    | Err e => (Returns (Err e), [EvDevice v; EvReconfigure v confSpec])
    | Ok task =>
      (Returns match Task_WaitForResult remote w2 task with
               | Ok _ => Ok tt
               | Err e => Err e
               end,
       [EvDevice v; EvReconfigure v confSpec; EvWaitForResult task])
    end.
Proof.
  intros Hdev Hide Hcd Hspec confSpec w1 w2. subst confSpec w1 w2.
  unfold AddCdrom. unfold_monad. simpl.
  rewrite Hdev, Hide, Hcd, Hspec. simpl.
  destruct (VM_Reconfigure _ _ _ _) as [task|e]; simpl.
  - destruct (Task_WaitForResult _ _ _); read_events; reflexivity.
  - read_events. reflexivity.
Qed.

Lemma AddCdrom_ignores_ConfigSpec_error_witness :
  run (AddCdrom (Endpoint.remote Endpoint.always_on) lib_failing_ConfigSpec
                Endpoint.template "[datastore1] os.iso") Endpoint.start
  = (Returns (Ok tt),
     [EvDevice Endpoint.template;
      EvReconfigure Endpoint.template ConfigSpec.zero;
      EvWaitForResult Endpoint.task_ref]).
Proof.
  exact (AddCdrom_ignores_ConfigSpec_error
           (Endpoint.remote Endpoint.always_on) lib_failing_ConfigSpec
           Endpoint.template "[datastore1] os.iso" Endpoint.start
           [Endpoint.ide0] Endpoint.ide0 _ []
           (Some (mkError "cannot build device changes"))
           eq_refl eq_refl eq_refl eq_refl).
Defined.

(** ** The device list of a created VM *)

Lemma addCdrom_ok (lib : DeviceLib) (devices : VirtualDeviceList)
      (config : CreateConfig.t) (datastore : Datastore) devices' :
  addCdrom lib devices config datastore = Ok devices' ->
  exists ide,
    CreateIDEController lib devices = Ok ide /\ devices' = devices ++ [ide].
Proof.
  unfold addCdrom.
  destruct (CreateIDEController lib devices) as [ide|e] eqn:Hide;
    [|discriminate].
  intros H. injection H as <-. exists ide. auto.
Qed.

Lemma addDisk_ok (lib : DeviceLib) (devices : VirtualDeviceList)
      (config : CreateConfig.t) devices' :
  addDisk lib devices config = Ok devices' ->
  exists scsi controller,
    CreateSCSIController lib devices (CreateConfig.ControllerType config)
    = Ok scsi
    /\ FindDiskController lib (devices ++ [scsi])
         (DeviceName lib (devices ++ [scsi]) scsi) = Ok controller
    /\ CreateConfig.DiskSizeKB config <> 0
    /\ devices'
       = (devices ++ [scsi])
         ++ [AssignController lib (devices ++ [scsi])
               (new_disk lib (devices ++ [scsi]) config) controller].
Proof.
  unfold addDisk, new_disk.
  destruct (CreateSCSIController lib devices _) as [scsi|e] eqn:Hscsi;
    [|discriminate].
  destruct (FindDiskController lib _ _) as [controller|e] eqn:Hfind;
    [|discriminate].
  destruct (CreateConfig.DiskSizeKB config =? 0) eqn:Hsize; [discriminate|].
  apply Z.eqb_neq in Hsize.
  intros H. injection H as <-.
  exists scsi, controller. auto.
Qed.

(** A successful [CreateVM] in terms of the helper calls it made: the IDE
    controller is created on the empty list, the SCSI controller on the list
    holding the IDE controller, the controller handle is looked up in the
    list holding both, the disk is assigned on that list, and the network
    card comes last. *)
Lemma CreateVM_success (remote : Remote) (lib : DeviceLib)
      (config : CreateConfig.t) (w : World) vm' evs :
  run (CreateVM remote lib config) w = (Returns (Ok vm'), evs) ->
  exists ide scsi controller nic backing folder spec pool host,
    CreateIDEController lib [] = Ok ide
    /\ CreateSCSIController lib [ide] (CreateConfig.ControllerType config)
       = Ok scsi
    /\ FindDiskController lib [ide; scsi] (DeviceName lib [ide; scsi] scsi)
       = Ok controller
    /\ CreateConfig.DiskSizeKB config <> 0
    /\ CreateEthernetCard lib "" backing = Ok nic
    /\ DeviceList_ConfigSpec lib
         [ide; scsi;
          AssignController lib [ide; scsi] (new_disk lib [ide; scsi] config)
                           controller;
          nic]
         VirtualDeviceConfigSpecOperationAdd
       = (ConfigSpec.DeviceChange spec, None)
    /\ In (EvCreateVM folder spec pool host) evs
    /\ existsb is_create_task evs = true.
Proof.
  unfold CreateVM, addNetwork. unfold_monad. simpl.
  repeat (next_answer; simpl); read_events;
    intros Hrun; try discriminate Hrun; inversion Hrun; subst; clear Hrun;
    repeat match goal with
           | H : addCdrom _ _ _ _ = Ok _ |- _ =>
             apply addCdrom_ok in H; destruct H as (ide & Hide & ->)
           | H : addDisk _ _ _ = Ok _ |- _ =>
             apply addDisk_ok in H;
               destruct H as (scsi & controller & Hscsi & Hfind & Hsize & ->)
           end;
    simpl in *;
    exists ide, scsi, controller;
    do 6 eexists;
    repeat match goal with
           | |- _ /\ _ => split
           end.
  all: try eassumption.
  all: try (simpl; tauto).
  all: try reflexivity.
  all: match goal with
       | H : DeviceList_ConfigSpec _ _ _ = _ |- _ => exact H
       end.
Qed.

(** C6: when [CreateVM] succeeds, the create task it submitted carries the
    device changes of the list, in this order: the IDE controller, the SCSI
    controller, the disk of the configured size, whose controller key is the
    key of that SCSI controller, and the network card.  The IDE controller
    was created on the empty list, the SCSI controller on the list holding
    the IDE controller, and the disk was assigned on the list holding both
    controllers. *)
Theorem CreateVM_device_order (remote : Remote) (lib : DeviceLib)
        (config : CreateConfig.t) (w : World) vm' evs :
  DeviceLib_ok lib ->
  run (CreateVM remote lib config) w = (Returns (Ok vm'), evs) ->
  exists ide scsi disk nic folder spec pool host,
    In (EvCreateVM folder spec pool host) evs
    /\ DeviceList_ConfigSpec lib
         [ide; scsi; VirtualDisk disk (CreateConfig.DiskSizeKB config); nic]
         VirtualDeviceConfigSpecOperationAdd
       = (ConfigSpec.DeviceChange spec, None)
    /\ is_ide_controller ide = true
    /\ is_scsi_controller scsi = true
    /\ ControllerKey disk = Key (GetVirtualDevice scsi)
    /\ is_ethernet_card nic = true
    /\ CreateIDEController lib [] = Ok ide
    /\ CreateSCSIController lib [ide] (CreateConfig.ControllerType config)
       = Ok scsi
    /\ AssignController lib [ide; scsi] (new_disk lib [ide; scsi] config) scsi
       = VirtualDisk disk (CreateConfig.DiskSizeKB config)
    /\ 0 <> CreateConfig.DiskSizeKB config.
Proof.
  intros Hlib Hrun.
  destruct (CreateVM_success _ _ _ _ _ _ Hrun)
    as (ide & scsi & controller & nic & backing & folder & spec & pool & host
        & Hide & Hscsi & Hfind & Hsize & Hnic & Hspec & Hin & _).
  pose proof (ide_is_ide _ Hlib _ _ Hide) as Tide.
  pose proof (scsi_is_scsi _ Hlib _ _ _ Hscsi) as Tscsi.
  pose proof (card_is_card _ Hlib _ _ _ Hnic) as Tnic.
  assert (controller = scsi) as ->.
  { apply (find_by_name _ Hlib [ide] scsi controller Tscsi); [|exact Hfind].
    intros d' [<-|[]]. apply (names_differ _ Hlib); assumption. }
  unfold new_disk in *.
  destruct (assign_binds _ Hlib [ide; scsi]
              {| Key := NewKey lib [ide; scsi]; ControllerKey := 0;
                 UnitNumber := None;
                 Backing :=
                   Some (VirtualDiskFlatVer2BackingInfo
                           VirtualDiskModePersistent
                           (Some (CreateConfig.ThinProvisioned config))) |}
              (CreateConfig.DiskSizeKB config) scsi)
    as (disk & Hassign & Hkey & _).
  rewrite Hassign in Hspec.
  exists ide, scsi, disk, nic, folder, spec, pool, host.
  repeat split; auto.
Qed.

(** The govmomi helpers meet what the driver relies on. *)

Lemma Govmomi_scsi_name_not_reserved (l : VirtualDeviceList) kind v :
  String.eqb (Govmomi.Name l (VirtualSCSIController kind v)) "ide" = false
  /\ String.eqb (Govmomi.Name l (VirtualSCSIController kind v)) "scsi" = false
  /\ String.eqb (Govmomi.Name l (VirtualSCSIController kind v)) "" = false.
Proof. destruct kind; repeat split; reflexivity. Qed.

Lemma find_last (A : Type) (f : A -> bool) (l : list A) (d : A) :
  (forall x, In x l -> f x = false) -> f d = true ->
  find f (l ++ [d]) = Some d.
Proof.
  intros Hl Hd. induction l as [|x l IH]; simpl.
  - rewrite Hd. reflexivity.
  - rewrite (Hl x (or_introl eq_refl)). apply IH.
    intros y Hy. apply Hl. right. exact Hy.
Qed.

Lemma Govmomi_ok : DeviceLib_ok Govmomi.lib.
Proof.
  constructor; simpl.
  - intros l d H. unfold Govmomi.CreateIDEController in H.
    injection H as <-. reflexivity.
  - intros l n d H. unfold Govmomi.CreateSCSIController in H.
    destruct (Govmomi.scsi_kind_of_name _); [|discriminate].
    injection H as <-. reflexivity.
  - intros n b d H. unfold Govmomi.CreateEthernetCard in H.
    destruct (existsb _ _); [|discriminate].
    injection H as <-. reflexivity.
  - intros l a b Ha Hb.
    destruct a; try discriminate Ha. destruct b; try discriminate Hb.
    destruct kind; intros H; discriminate H.
  - intros l d c Hd Hothers.
    destruct d as [|kind v| | |]; try discriminate Hd.
    destruct (Govmomi_scsi_name_not_reserved (l ++ [VirtualSCSIController kind v])
                kind v) as (Hn1 & Hn2 & Hn3).
    unfold Govmomi.FindDiskController. rewrite Hn1, Hn2, Hn3. simpl.
    unfold Govmomi.Find.
    rewrite (find_last _ _ l (VirtualSCSIController kind v)).
    + simpl. intros H. injection H as <-. reflexivity.
    + intros x Hx. apply String.eqb_neq. apply Hothers. exact Hx.
    + apply String.eqb_refl.
  - intros l v cap c. eexists. repeat split.
Qed.

Lemma CreateVM_device_order_witness :
  exists ide scsi disk nic folder spec pool host,
    In (EvCreateVM folder spec pool host)
       (snd (run (CreateVM (Endpoint.remote Endpoint.always_on) Govmomi.lib
                           Endpoint.tpl1) Endpoint.start))
    /\ DeviceList_ConfigSpec Govmomi.lib
         [ide; scsi;
          VirtualDisk disk (CreateConfig.DiskSizeKB Endpoint.tpl1); nic]
         VirtualDeviceConfigSpecOperationAdd
       = (ConfigSpec.DeviceChange spec, None)
    /\ is_ide_controller ide = true
    /\ is_scsi_controller scsi = true
    /\ ControllerKey disk = Key (GetVirtualDevice scsi)
    /\ is_ethernet_card nic = true
    /\ CreateIDEController Govmomi.lib [] = Ok ide
    /\ CreateSCSIController Govmomi.lib [ide]
         (CreateConfig.ControllerType Endpoint.tpl1) = Ok scsi
    /\ AssignController Govmomi.lib [ide; scsi]
         (new_disk Govmomi.lib [ide; scsi] Endpoint.tpl1) scsi
       = VirtualDisk disk (CreateConfig.DiskSizeKB Endpoint.tpl1)
    /\ 0 <> CreateConfig.DiskSizeKB Endpoint.tpl1.
Proof.
  exact (CreateVM_device_order (Endpoint.remote Endpoint.always_on)
           Govmomi.lib Endpoint.tpl1 Endpoint.start _ _ Govmomi_ok eq_refl).
Defined.

Example CreateVM_devices_run :
  map Device
      (flat_map (fun e => match e with
                          | EvCreateVM _ spec _ _ => ConfigSpec.DeviceChange spec
                          | _ => []
                          end)
                (snd (run (CreateVM (Endpoint.remote Endpoint.always_on)
                                    Govmomi.lib Endpoint.tpl1)
                          Endpoint.start)))
  = [VirtualIDEController
       {| Key := -201; ControllerKey := 0; UnitNumber := None;
          Backing := None |};
     VirtualSCSIController ParaVirtualSCSI
       {| Key := -202; ControllerKey := 0; UnitNumber := None;
          Backing := None |};
     VirtualDisk
       {| Key := -203; ControllerKey := -202; UnitNumber := Some 0;
          Backing := Some (VirtualDiskFlatVer2BackingInfo "persistent"
                             (Some true)) |}
       20971520;
     VirtualEthernetCard "e1000"
       {| Key := -1; ControllerKey := 0; UnitNumber := None;
          Backing := Some (EthernetCardBacking "VM Network") |}].
Proof. reflexivity. Qed.

(** ** Waiting for shutdown *)

Section Shutdown.

Variable remote : Remote.
Variable v : VirtualMachine.
Variable L : Z.

(** The VM answers every poll, never with [poweredOff], within [L]. *)
Hypothesis never_off :
  forall w, exists s,
      VM_PowerState remote w v = Ok s /\ String.eqb s "poweredOff" = false.
Hypothesis answers_in_time :
  forall w, 0 <= latency remote w (EvPowerState v) <= L.

(** The loop from a world that is at most [k] seconds before the timer
    fires: it stops on the timer after at most [k] sleeps. *)
Lemma WaitForShutdown_loop_times_out (k : nat) :
  forall (shutdownTimer : Z) (w : World),
    shutdownTimer - clock w <= Z.of_nat k * Second ->
    clock w < shutdownTimer + Second ->
    exists (sleeps : nat) (w' : World),
      (forall fuel,
          WaitForShutdown_loop remote fuel v shutdownTimer w
          = if (sleeps <? fuel)%nat
            then Some (Err shutdown_timeout_error, w') else None)
      /\ trace w' = trace w ++ poll_events v sleeps
      /\ shutdownTimer <= clock w' < shutdownTimer + Second + L
      /\ Z.of_nat sleeps * Second
         < Z.max 0 (shutdownTimer - clock w) + Second.
Proof.
  assert (Hstop : forall shutdownTimer w,
             (shutdownTimer
              <=? clock (advance remote (EvPowerState v) w)) = true ->
             clock w < shutdownTimer + Second ->
             exists (sleeps : nat) (w' : World),
               (forall fuel,
                   WaitForShutdown_loop remote fuel v shutdownTimer w
                   = if (sleeps <? fuel)%nat
                     then Some (Err shutdown_timeout_error, w') else None)
               /\ trace w' = trace w ++ poll_events v sleeps
               /\ shutdownTimer <= clock w' < shutdownTimer + Second + L
               /\ Z.of_nat sleeps * Second
                  < Z.max 0 (shutdownTimer - clock w) + Second).
  { intros shutdownTimer w Hfired Hnear.
    destruct (never_off w) as (s & Hs & Hon).
    pose proof (answers_in_time w) as Hlat.
    exists O, (advance remote (EvPowerState v) w).
    split; [|split; [reflexivity|]].
    - intros [|fuel]; [reflexivity|].
      cbn [WaitForShutdown_loop]. unfold remote_call.
      rewrite Hs. cbv beta iota. rewrite Hon, Hfired. reflexivity.
    - apply Z.leb_le in Hfired. simpl in *. unfold Second in *. lia. }
  induction k as [|k IH]; intros shutdownTimer w Hk Hnear;
    destruct (shutdownTimer
              <=? clock (advance remote (EvPowerState v) w)) eqn:Hfired;
    try (apply Hstop; assumption);
    destruct (never_off w) as (s & Hs & Hon);
    pose proof (answers_in_time w) as Hlat;
    pose proof Hfired as Hnot; apply Z.leb_gt in Hnot; simpl in Hnot.
  - unfold Second in *. lia.
  - destruct (IH shutdownTimer
                 (Sleep (1 * Second) (advance remote (EvPowerState v) w)))
      as (sleeps & w' & Hloop & Htrace & Hclock & Hsleeps).
    + simpl. unfold Second in *. lia.
    + simpl. unfold Second in *. lia.
    + exists (S sleeps), w'.
      split; [|split; [|split]].
      * intros [|fuel]; [reflexivity|].
        cbn [WaitForShutdown_loop]. unfold remote_call.
        rewrite Hs. cbv beta iota. rewrite Hon, Hfired.
        rewrite Hloop. reflexivity.
      * rewrite Htrace. simpl. rewrite <- !app_assoc. reflexivity.
      * exact Hclock.
      * simpl in Hsleeps. unfold Second in *. lia.
Qed.

End Shutdown.

(** C8: on a logical clock, with a VM that answers every poll within [L]
    and never with [poweredOff], [WaitForShutdown] with a positive timeout
    stops, given fuel for one iteration more than it sleeps, and with any
    fuel it yields nothing but the timeout error; it polls, sleeps
    one second and polls again, the number of sleeps times one second is
    less than the timeout plus a second, and it stops at or after the
    timeout and less than a second plus one answer time after it. *)
Theorem WaitForShutdown_times_out (remote : Remote) (v : VirtualMachine)
        (timeout L : Z) (w : World) :
  0 < timeout ->
  (forall w0, exists s,
        VM_PowerState remote w0 v = Ok s
        /\ String.eqb s "poweredOff" = false) ->
  (forall w0, 0 <= latency remote w0 (EvPowerState v) <= L) ->
  exists (sleeps : nat) (w' : World),
    (forall fuel,
        WaitForShutdown remote fuel v timeout w
        = if (sleeps <? fuel)%nat
          then Some (Err shutdown_timeout_error, w') else None)
    /\ new_events w w' = poll_events v sleeps
    /\ Z.of_nat sleeps * Second < timeout + Second
    /\ clock w + timeout <= clock w' < clock w + timeout + Second + L.
Proof.
  intros Hpos Hon Hlat.
  destruct (WaitForShutdown_loop_times_out remote v L Hon Hlat
              (Z.to_nat timeout) (clock w + timeout) w)
    as (sleeps & w' & Hloop & Htrace & Hclock & Hsleeps).
  - unfold Second. lia.
  - unfold Second. lia.
  - exists sleeps, w'. split; [|split; [|split]].
    + intros fuel. unfold WaitForShutdown. apply Hloop.
    + apply new_events_app. exact Htrace.
    + unfold Second in *. lia.
    + exact Hclock.
Qed.

Lemma WaitForShutdown_times_out_witness :
  exists (sleeps : nat) (w' : World),
    (forall fuel,
        WaitForShutdown (Endpoint.remote Endpoint.always_on) fuel
                        Endpoint.template (2 * Second) Endpoint.start
        = if (sleeps <? fuel)%nat
          then Some (Err shutdown_timeout_error, w') else None)
    /\ new_events Endpoint.start w' = poll_events Endpoint.template sleeps
    /\ Z.of_nat sleeps * Second < 2 * Second + Second
    /\ clock Endpoint.start + 2 * Second <= clock w'
       < clock Endpoint.start + 2 * Second + Second + 0.
Proof.
  apply (WaitForShutdown_times_out (Endpoint.remote Endpoint.always_on)
           Endpoint.template (2 * Second) 0 Endpoint.start).
  - reflexivity.
  - intros w0. exists "poweredOn". split; reflexivity.
  - intros w0. simpl. lia.
Defined.

Example WaitForShutdown_two_seconds :
  WaitForShutdown (Endpoint.remote Endpoint.always_on) 10 Endpoint.template
                  (2 * Second) Endpoint.start
  = Some (Err shutdown_timeout_error,
          {| trace := [EvPowerState Endpoint.template; EvSleep Second;
                       EvPowerState Endpoint.template; EvSleep Second;
                       EvPowerState Endpoint.template];
             clock := 2 * Second |}).
Proof. reflexivity. Qed.

(* ================================================================= *)
(** * Further properties *)

(** ** Creating a VM, continued *)

(** X1: with [Force = true], [CreateVM] never asks whether the backing file
    exists, whatever the remote end answers. *)
Theorem CreateVM_force_skips_check (remote : Remote) (lib : DeviceLib)
        (config : CreateConfig.t) (w : World) r evs :
  CreateConfig.Force config = true ->
  run (CreateVM remote lib config) w = (r, evs) ->
  existsb is_file_exists evs = false.
Proof.
  intros Hforce.
  unfold CreateVM, addNetwork. rewrite Hforce. unfold_monad. simpl.
  repeat (next_answer; simpl); read_events;
    intros Hrun; injection Hrun as <- <-; reflexivity.
Qed.

Lemma CreateVM_force_skips_check_witness :
  existsb is_file_exists
          (snd (run (CreateVM (Endpoint.remote Endpoint.file_present)
                              Govmomi.lib forced_tpl1) Endpoint.start))
  = false.
Proof.
  exact (CreateVM_force_skips_check (Endpoint.remote Endpoint.file_present)
           Govmomi.lib forced_tpl1 Endpoint.start _ _ eq_refl eq_refl).
Defined.

(** What any create task of [CreateVM] was built from: the folder, the
    resource pool and the host that the lookups returned, the datastore the
    lookup returned, and the device changes of some device list. *)
Lemma CreateVM_submits (remote : Remote) (lib : DeviceLib)
      (config : CreateConfig.t) (w : World) r evs :
  run (CreateVM remote lib config) w = (r, evs) ->
  forall folder spec pool host,
    In (EvCreateVM folder spec pool host) evs ->
    (exists w0, FindFolder remote w0 (CreateConfig.Folder config) = Ok folder)
    /\ (exists w0, FindResourcePool remote w0 (CreateConfig.Host config)
                     (CreateConfig.ResourcePool config) = Ok pool)
    /\ (exists w0, FindHost remote w0 (CreateConfig.Host config) = Ok host)
    /\ (exists w0 datastore devices,
           FindDatastoreOrDefault remote w0 (CreateConfig.Datastore config)
           = Ok datastore
           /\ DeviceList_ConfigSpec lib devices
                VirtualDeviceConfigSpecOperationAdd
              = (ConfigSpec.DeviceChange spec, None)
           /\ spec
              = ConfigSpec.with_Files
                  (Some {| VmPathName :=
                             ("[" ++ ds_Name datastore ++ "]")%string |})
                  (ConfigSpec.with_DeviceChange (ConfigSpec.DeviceChange spec)
                     (CreateConfig_toConfigSpec config))).
Proof.
  unfold CreateVM, addNetwork. unfold_monad. simpl.
  repeat (next_answer; simpl); read_events;
    intros Hrun; injection Hrun as <- <-;
    intros ? ? ? ? Hin; simpl in Hin;
    repeat match goal with
           | H : _ \/ _ |- _ => destruct H as [H|H]
           | H : False |- _ => destruct H
           | H : _ = EvCreateVM _ _ _ _ |- _ =>
             first [ discriminate H | injection H as <- <- <- <- ]
           end;
    (split; [eauto|]); (split; [eauto|]); (split; [eauto|]);
    do 3 eexists; (split; [eassumption|]); split;
    first [ eassumption | reflexivity ].
Qed.

(** X2: every create task that [CreateVM] submits goes to the folder that
    the lookup of [config.Folder] returned, with the resource pool that the
    lookup of [config.Host] and [config.ResourcePool] returned and the host
    that the lookup of [config.Host] returned. *)
Theorem CreateVM_task_targets (remote : Remote) (lib : DeviceLib)
        (config : CreateConfig.t) (w : World) r evs :
  run (CreateVM remote lib config) w = (r, evs) ->
  forall folder spec pool host,
    In (EvCreateVM folder spec pool host) evs ->
    (exists w0, FindFolder remote w0 (CreateConfig.Folder config) = Ok folder)
    /\ (exists w0, FindResourcePool remote w0 (CreateConfig.Host config)
                     (CreateConfig.ResourcePool config) = Ok pool)
    /\ (exists w0, FindHost remote w0 (CreateConfig.Host config) = Ok host).
Proof.
  intros Hrun folder spec pool host Hin.
  destruct (CreateVM_submits _ _ _ _ _ _ Hrun _ _ _ _ Hin)
    as (Hf & Hp & Hh & _).
  auto.
Qed.

Lemma CreateVM_task_targets_witness :
  (exists w0, FindFolder (Endpoint.remote Endpoint.always_on) w0
                (CreateConfig.Folder Endpoint.tpl1) = Ok (mkRef "Folder" ""))
  /\ (exists w0, FindResourcePool (Endpoint.remote Endpoint.always_on) w0
                   (CreateConfig.Host Endpoint.tpl1)
                   (CreateConfig.ResourcePool Endpoint.tpl1)
                 = Ok (mkRef "ResourcePool" ""))
  /\ (exists w0, FindHost (Endpoint.remote Endpoint.always_on) w0
                   (CreateConfig.Host Endpoint.tpl1)
                 = Ok (mkRef "HostSystem" "esx-1")).
Proof.
  refine (CreateVM_task_targets (Endpoint.remote Endpoint.always_on)
            Govmomi.lib Endpoint.tpl1 Endpoint.start _ _ eq_refl
            (mkRef "Folder" "") _ (mkRef "ResourcePool" "")
            (mkRef "HostSystem" "esx-1") _).
  simpl. do 7 right. left. reflexivity.
Defined.



(** How runs of [CreateVM] end, whatever the remote end answers. *)
Lemma CreateVM_outcomes (remote : Remote) (lib : DeviceLib)
      (config : CreateConfig.t) (w : World) r evs :
  run (CreateVM remote lib config) w = (r, evs) ->
  (List.length (filter is_create_task evs) <= 1)%nat
  /\ (existsb is_create_task evs = true ->
      existsb is_network_lookup evs = true)
  /\ (existsb is_network_lookup evs = true ->
      CreateConfig.DiskSizeKB config <> 0)
  /\ (forall v', r = Returns (Ok v') ->
        existsb is_create_task evs = true
        /\ exists w0 task info,
            Task_WaitForResult remote w0 task = Ok info
            /\ Result info = AnyRef (vm v'))
  /\ (forall msg, r = Panics msg ->
        existsb is_create_task evs = true
        /\ exists w0 task info,
            Task_WaitForResult remote w0 task = Ok info
            /\ forall ref, Result info <> AnyRef ref).
Proof.
  unfold CreateVM, addNetwork. unfold_monad. simpl.
  repeat (next_answer; simpl); read_events;
    intros Hrun; injection Hrun as <- <-;
    repeat match goal with
           | H : addDisk _ _ _ = Ok _ |- _ =>
             apply addDisk_ok in H;
               destruct H as (_ & _ & _ & _ & Hsize & _)
           end;
    (split; [simpl; lia|]);
    (split; [simpl; intros; first [discriminate | reflexivity]|]);
    (split; [simpl; intros; first [discriminate | assumption]|]);
    (split; intros ? Hr; try discriminate Hr;
     (split; [reflexivity|]);
     do 3 eexists; (split; [eassumption|]);
     first [ injection Hr as <-; simpl; assumption
           | intros ref Href; congruence ]).
Qed.

(** X4: [CreateVM] never retries: whatever the remote end answers, a run
    holds at most one create task. *)
Theorem CreateVM_single_task (remote : Remote) (lib : DeviceLib)
        (config : CreateConfig.t) (w : World) r evs :
  run (CreateVM remote lib config) w = (r, evs) ->
  (List.length (filter is_create_task evs) <= 1)%nat.
Proof.
  intros Hrun. exact (proj1 (CreateVM_outcomes _ _ _ _ _ _ Hrun)).
Qed.

Lemma CreateVM_single_task_witness :
  (List.length
     (filter is_create_task
             (snd (run (CreateVM (Endpoint.remote Endpoint.always_on)
                                 Govmomi.lib Endpoint.tpl1) Endpoint.start)))
   <= 1)%nat.
Proof.
  exact (CreateVM_single_task (Endpoint.remote Endpoint.always_on)
           Govmomi.lib Endpoint.tpl1 Endpoint.start _ _ eq_refl).
Defined.



(** X6: with a disk size of 0, [CreateVM] never returns a VM and never
    submits a create task, whatever the helpers and the remote end do; it
    does not even get to look the network up. *)
Theorem CreateVM_zero_disk_never_creates (remote : Remote) (lib : DeviceLib)
        (config : CreateConfig.t) (w : World) r evs :
  CreateConfig.DiskSizeKB config = 0 ->
  run (CreateVM remote lib config) w = (r, evs) ->
  (forall v', r <> Returns (Ok v'))
  /\ existsb is_create_task evs = false
  /\ existsb is_network_lookup evs = false.
Proof.
  intros Hsize Hrun.
  destruct (CreateVM_outcomes _ _ _ _ _ _ Hrun)
    as (_ & Hcreate & Hnet & Hok & _).
  assert (Hn : existsb is_network_lookup evs = false).
  { destruct (existsb is_network_lookup evs); [|reflexivity].
    exfalso. apply Hnet; [reflexivity | exact Hsize]. }
  assert (Hc : existsb is_create_task evs = false).
  { destruct (existsb is_create_task evs); [|reflexivity].
    rewrite Hcreate in Hn by reflexivity. discriminate Hn. }
  split; [|split; assumption].
  intros v' Hr. destruct (Hok v' Hr) as [Hsub _].
  rewrite Hc in Hsub. discriminate Hsub.
Qed.

Lemma CreateVM_zero_disk_never_creates_witness :
  (forall v',
      fst (run (CreateVM (Endpoint.remote Endpoint.always_on) Govmomi.lib
                         (Endpoint.with_DiskSizeKB 0 Endpoint.tpl1))
               Endpoint.start) <> Returns (Ok v'))
  /\ existsb is_create_task
             (snd (run (CreateVM (Endpoint.remote Endpoint.always_on)
                                 Govmomi.lib
                                 (Endpoint.with_DiskSizeKB 0 Endpoint.tpl1))
                       Endpoint.start)) = false
  /\ existsb is_network_lookup
             (snd (run (CreateVM (Endpoint.remote Endpoint.always_on)
                                 Govmomi.lib
                                 (Endpoint.with_DiskSizeKB 0 Endpoint.tpl1))
                       Endpoint.start)) = false.
Proof.
  exact (CreateVM_zero_disk_never_creates
           (Endpoint.remote Endpoint.always_on) Govmomi.lib
           (Endpoint.with_DiskSizeKB 0 Endpoint.tpl1) Endpoint.start _ _
           eq_refl eq_refl).
Defined.

(** ** Order of the existence check *)




(** ** Device composer, continued *)

(** X8: when [addDisk] succeeds, the list it returns is the list it was
    given followed by exactly two devices: a SCSI controller and a disk.
    The disk has the configured capacity, which is not 0, a persistent
    flat backing with the configured thin-provisioning flag, and the key of
    the controller that was looked up as its controller key. *)
Theorem addDisk_appends (lib : DeviceLib) (devices : VirtualDeviceList)
        (config : CreateConfig.t) devices' :
  DeviceLib_ok lib ->
  addDisk lib devices config = Ok devices' ->
  exists scsi controller d,
    devices' = devices ++ [scsi; VirtualDisk d (CreateConfig.DiskSizeKB config)]
    /\ is_scsi_controller scsi = true
    /\ FindDiskController lib (devices ++ [scsi])
         (DeviceName lib (devices ++ [scsi]) scsi) = Ok controller
    /\ ControllerKey d = Key (GetVirtualDevice controller)
    /\ Backing d
       = Some (VirtualDiskFlatVer2BackingInfo
                 VirtualDiskModePersistent
                 (Some (CreateConfig.ThinProvisioned config)))
    /\ CreateConfig.DiskSizeKB config <> 0.
Proof.
  intros Hlib Hadd.
  destruct (addDisk_ok _ _ _ _ Hadd)
    as (scsi & controller & Hscsi & Hfind & Hsize & ->).
  unfold new_disk.
  destruct (assign_binds _ Hlib (devices ++ [scsi])
              {| Key := NewKey lib (devices ++ [scsi]); ControllerKey := 0;
                 UnitNumber := None;
                 Backing :=
                   Some (VirtualDiskFlatVer2BackingInfo
                           VirtualDiskModePersistent
                           (Some (CreateConfig.ThinProvisioned config))) |}
              (CreateConfig.DiskSizeKB config) controller)
    as (d & -> & Hkey & Hbacking).
  exists scsi, controller, d.
  rewrite <- app_assoc. simpl.
  repeat split; auto.
  exact (scsi_is_scsi _ Hlib _ _ _ Hscsi).
Qed.

Lemma addDisk_appends_witness :
  exists scsi controller d,
    [Endpoint.ide0;
     VirtualSCSIController ParaVirtualSCSI
       {| Key := -201; ControllerKey := 0; UnitNumber := None;
          Backing := None |};
     VirtualDisk
       {| Key := -202; ControllerKey := -201; UnitNumber := Some 0;
          Backing := Some (VirtualDiskFlatVer2BackingInfo "persistent"
                             (Some true)) |}
       20971520]
    = [Endpoint.ide0] ++ [scsi; VirtualDisk d
                                  (CreateConfig.DiskSizeKB Endpoint.tpl1)]
    /\ is_scsi_controller scsi = true
    /\ FindDiskController Govmomi.lib ([Endpoint.ide0] ++ [scsi])
         (DeviceName Govmomi.lib ([Endpoint.ide0] ++ [scsi]) scsi)
       = Ok controller
    /\ ControllerKey d = Key (GetVirtualDevice controller)
    /\ Backing d
       = Some (VirtualDiskFlatVer2BackingInfo
                 VirtualDiskModePersistent
                 (Some (CreateConfig.ThinProvisioned Endpoint.tpl1)))
    /\ CreateConfig.DiskSizeKB Endpoint.tpl1 <> 0.
Proof.
  exact (addDisk_appends Govmomi.lib [Endpoint.ide0] Endpoint.tpl1
           [Endpoint.ide0;
            VirtualSCSIController ParaVirtualSCSI
              {| Key := -201; ControllerKey := 0; UnitNumber := None;
                 Backing := None |};
            VirtualDisk
              {| Key := -202; ControllerKey := -201; UnitNumber := Some 0;
                 Backing := Some (VirtualDiskFlatVer2BackingInfo "persistent"
                                    (Some true)) |}
              20971520]
           Govmomi_ok eq_refl).
Defined.

(** X9: [addNetwork] makes at most two remote calls and never panics.  When
    it succeeds it has looked up the configured network, asked that very
    network for its backing, created a card of the default type on that
    backing, and returns the list it was given followed by that card. *)
Theorem addNetwork_appends (remote : Remote) (lib : DeviceLib)
        (devices : VirtualDeviceList) (config : CreateConfig.t)
        (w : World) r evs :
  run (addNetwork remote lib devices config) w = (r, evs) ->
  (forall msg, r <> Panics msg)
  /\ (List.length evs <= 2)%nat
  /\ (forall devices', r = Returns (Ok devices') ->
        exists network backing nic,
          NetworkOrDefault remote w (CreateConfig.Network config) = Ok network
          /\ EthernetCardBackingInfo remote
               (advance remote
                        (EvNetworkOrDefault (CreateConfig.Network config)) w)
               network = Ok backing
          /\ CreateEthernetCard lib "" backing = Ok nic
          /\ devices' = devices ++ [nic]
          /\ evs = [EvNetworkOrDefault (CreateConfig.Network config);
                    EvEthernetCardBackingInfo network]).
Proof.
  unfold addNetwork. unfold_monad. simpl.
  repeat (next_answer; simpl); read_events;
    intros Hrun; injection Hrun as <- <-;
    (split; [intros msg; discriminate|]);
    (split; [simpl; lia|]);
    intros devices' Hr; try discriminate Hr;
    injection Hr as <-; eauto 10.
Qed.

Lemma addNetwork_appends_witness :
  exists network backing nic,
    NetworkOrDefault (Endpoint.remote Endpoint.always_on) Endpoint.start
      (CreateConfig.Network Endpoint.tpl1) = Ok network
    /\ EthernetCardBackingInfo (Endpoint.remote Endpoint.always_on)
         (advance (Endpoint.remote Endpoint.always_on)
                  (EvNetworkOrDefault (CreateConfig.Network Endpoint.tpl1))
                  Endpoint.start)
         network = Ok backing
    /\ CreateEthernetCard Govmomi.lib "" backing = Ok nic
    /\ [Endpoint.ide0;
        VirtualEthernetCard "e1000"
          {| Key := -1; ControllerKey := 0; UnitNumber := None;
             Backing := Some (EthernetCardBacking "VM Network") |}]
       = [Endpoint.ide0] ++ [nic]
    /\ [EvNetworkOrDefault "VM Network";
        EvEthernetCardBackingInfo (mkRef "Network" "VM Network")]
       = [EvNetworkOrDefault (CreateConfig.Network Endpoint.tpl1);
          EvEthernetCardBackingInfo network].
Proof.
  exact (proj2 (proj2 (addNetwork_appends
                         (Endpoint.remote Endpoint.always_on) Govmomi.lib
                         [Endpoint.ide0] Endpoint.tpl1 Endpoint.start _ _
                         eq_refl))
               _ eq_refl).
Defined.

(** X10: the create-time [addCdrom] adds no CD-ROM drive: when it succeeds
    it returns the list it was given followed by one IDE controller, so the
    CD-ROM drives of the list are those it had before; and its result does
    not depend on the configuration or the datastore. *)
Theorem addCdrom_adds_controller_only (lib : DeviceLib)
        (devices : VirtualDeviceList) (config : CreateConfig.t)
        (datastore : Datastore) devices' :
  DeviceLib_ok lib ->
  addCdrom lib devices config datastore = Ok devices' ->
  (exists ide,
      devices' = devices ++ [ide] /\ is_ide_controller ide = true)
  /\ filter is_cdrom devices' = filter is_cdrom devices
  /\ (forall config2 datastore2,
         addCdrom lib devices config2 datastore2 = Ok devices').
Proof.
  intros Hlib Hadd.
  destruct (addCdrom_ok _ _ _ _ _ Hadd) as (ide & Hide & ->).
  pose proof (ide_is_ide _ Hlib _ _ Hide) as Tide.
  split; [eauto|]. split.
  - rewrite filter_app. simpl.
    destruct ide; try discriminate Tide. simpl. apply app_nil_r.
  - intros config2 datastore2. unfold addCdrom. rewrite Hide. reflexivity.
Qed.

Lemma addCdrom_adds_controller_only_witness :
  (exists ide,
      [VirtualIDEController
         {| Key := -201; ControllerKey := 0; UnitNumber := None;
            Backing := None |}]
      = [] ++ [ide] /\ is_ide_controller ide = true)
  /\ filter is_cdrom
            [VirtualIDEController
               {| Key := -201; ControllerKey := 0; UnitNumber := None;
                  Backing := None |}]
     = filter is_cdrom []
  /\ (forall config2 datastore2,
         addCdrom Govmomi.lib [] config2 datastore2
         = Ok [VirtualIDEController
                 {| Key := -201; ControllerKey := 0; UnitNumber := None;
                    Backing := None |}]).
Proof.
  exact (addCdrom_adds_controller_only Govmomi.lib [] Endpoint.tpl1
           (mkDatastore (mkRef "Datastore" "datastore1") "datastore1") _
           Govmomi_ok eq_refl).
Defined.

(** ** Cloning, continued *)

(** Where the clone tasks of [Clone] go and how its runs end. *)
Lemma Clone_outcomes (remote : Remote) (template : VirtualMachine)
      (config : CloneConfig.t) (w : World) r evs :
  run (Clone remote template config) w = (r, evs) ->
  (forall v f name spec,
      In (EvClone v f name spec) evs ->
      (exists w0, FindFolder remote w0 (CloneConfig.Folder config) = Ok f)
      /\ (exists w0 pool,
             FindResourcePool remote w0 (CloneConfig.Host config)
               (CloneConfig.ResourcePool config) = Ok pool
             /\ Pool (Location spec) = Some pool)
      /\ (exists w0 datastore,
             FindDatastoreOrDefault remote w0 (CloneConfig.Datastore config)
             = Ok datastore
             /\ RelocateDatastore (Location spec) = Some (ds datastore)))
  /\ (CloneConfig.LinkedClone config = false ->
      existsb is_properties evs = false)
  /\ (List.length (filter is_clone_task evs) <= 1)%nat
  /\ existsb is_find_host evs = false
  /\ (forall v', r = Returns (Ok v') ->
        exists w0 task info,
          Task_WaitForResult remote w0 task = Ok info
          /\ Result info = AnyRef (vm v'))
  /\ (forall msg, r = Panics msg ->
        existsb is_clone_task evs = true
        /\ exists w0 task info,
            Task_WaitForResult remote w0 task = Ok info
            /\ forall ref, Result info <> AnyRef ref).
Proof.
  unfold Clone, Info. unfold_monad. simpl.
  repeat (next_answer; simpl); read_events;
    intros Hrun; injection Hrun as <- <-;
    (split;
     [intros ? ? ? ? Hin; simpl in Hin;
      repeat match goal with
             | H : _ \/ _ |- _ => destruct H as [H|H]
             | H : False |- _ => destruct H
             | H : _ = EvClone _ _ _ _ |- _ =>
               first [ discriminate H | injection H as <- <- <- <- ]
             end;
      simpl; eauto 10|]);
    (split; [intros; first [reflexivity | congruence]|]);
    (split; [simpl; lia|]);
    (split; [reflexivity|]);
    (split; intros ? Hr; try discriminate Hr;
     try (split; [reflexivity|]);
     do 3 eexists; (split; [eassumption|]);
     first [ injection Hr as <-; simpl; assumption
           | intros ref Href; congruence ]).
Qed.

(** X11: an ordinary clone ([LinkedClone = false]) never reads the
    template's properties, and every clone task it submits has an empty
    disk move type and no snapshot. *)
Theorem Clone_plain_reads_no_snapshot (remote : Remote)
        (template : VirtualMachine) (config : CloneConfig.t) (w : World)
        r evs :
  CloneConfig.LinkedClone config = false ->
  run (Clone remote template config) w = (r, evs) ->
  existsb is_properties evs = false
  /\ (forall v f name spec,
         In (EvClone v f name spec) evs ->
         DiskMoveType (Location spec) = "" /\ Snapshot spec = None).
Proof.
  intros Hplain Hrun. split.
  - destruct (Clone_outcomes _ _ _ _ _ _ Hrun) as (_ & H & _). auto.
  - intros v f name spec Hin.
    destruct (Clone_submits _ _ _ _ _ _ Hrun _ _ _ _ Hin)
      as (_ & _ & _ & H & _).
    auto.
Qed.

Lemma Clone_plain_reads_no_snapshot_witness :
  existsb is_properties
          (snd (run (Clone (Endpoint.remote Endpoint.with_snapshot)
                           Endpoint.template (Endpoint.clone1 false))
                    Endpoint.start)) = false
  /\ DiskMoveType (Location
                     {| Location := {| Pool := Some (mkRef "ResourcePool" "");
                                       RelocateDatastore :=
                                         Some (mkRef "Datastore" "datastore1");
                                       DiskMoveType := "" |};
                        PowerOn := false;
                        Snapshot := None |}) = ""
  /\ Snapshot {| Location := {| Pool := Some (mkRef "ResourcePool" "");
                                RelocateDatastore :=
                                  Some (mkRef "Datastore" "datastore1");
                                DiskMoveType := "" |};
                 PowerOn := false;
                 Snapshot := None |} = None.
Proof.
  destruct (Clone_plain_reads_no_snapshot
              (Endpoint.remote Endpoint.with_snapshot) Endpoint.template
              (Endpoint.clone1 false) Endpoint.start _ _ eq_refl eq_refl)
    as [Hnone Hspec].
  split; [exact Hnone|].
  refine (Hspec Endpoint.template (mkRef "Folder" "") "clone1" _ _).
  simpl. do 3 right. left. reflexivity.
Defined.

(** X12: every clone task that [Clone] submits is filed in the folder that
    the lookup of [config.Folder] returned, and its location holds the
    resource pool that the lookup of [config.Host] and
    [config.ResourcePool] returned and the reference of the datastore that
    the lookup of [config.Datastore] returned. *)
Theorem Clone_task_targets (remote : Remote) (template : VirtualMachine)
        (config : CloneConfig.t) (w : World) r evs :
  run (Clone remote template config) w = (r, evs) ->
  forall v f name spec,
    In (EvClone v f name spec) evs ->
    (exists w0, FindFolder remote w0 (CloneConfig.Folder config) = Ok f)
    /\ (exists w0 pool,
           FindResourcePool remote w0 (CloneConfig.Host config)
             (CloneConfig.ResourcePool config) = Ok pool
           /\ Pool (Location spec) = Some pool)
    /\ (exists w0 datastore,
           FindDatastoreOrDefault remote w0 (CloneConfig.Datastore config)
           = Ok datastore
           /\ RelocateDatastore (Location spec) = Some (ds datastore)).
Proof.
  intros Hrun. exact (proj1 (Clone_outcomes _ _ _ _ _ _ Hrun)).
Qed.

Lemma Clone_task_targets_witness :
  (exists w0, FindFolder (Endpoint.remote Endpoint.always_on) w0
                (CloneConfig.Folder (Endpoint.clone1 false))
              = Ok (mkRef "Folder" ""))
  /\ (exists w0 pool,
         FindResourcePool (Endpoint.remote Endpoint.always_on) w0
           (CloneConfig.Host (Endpoint.clone1 false))
           (CloneConfig.ResourcePool (Endpoint.clone1 false)) = Ok pool
         /\ Some (mkRef "ResourcePool" "") = Some pool)
  /\ (exists w0 datastore,
         FindDatastoreOrDefault (Endpoint.remote Endpoint.always_on) w0
           (CloneConfig.Datastore (Endpoint.clone1 false)) = Ok datastore
         /\ Some (mkRef "Datastore" "datastore1") = Some (ds datastore)).
Proof.
  refine (Clone_task_targets (Endpoint.remote Endpoint.always_on)
            Endpoint.template (Endpoint.clone1 false) Endpoint.start _ _
            eq_refl Endpoint.template (mkRef "Folder" "") "clone1"
            {| Location := {| Pool := Some (mkRef "ResourcePool" "");
                              RelocateDatastore :=
                                Some (mkRef "Datastore" "datastore1");
                              DiskMoveType := "" |};
               PowerOn := false;
               Snapshot := None |} _).
  simpl. do 3 right. left. reflexivity.
Defined.



(** ** Waiting for shutdown, continued *)

(** How the loop of [WaitForShutdown] ends when it ends, whatever the
    remote end answers. *)
Lemma WaitForShutdown_loop_ends (remote : Remote) (v : VirtualMachine)
      (shutdownTimer : Z) :
  forall (fuel : nat) (w : World) r w',
    WaitForShutdown_loop remote fuel v shutdownTimer w = Some (r, w') ->
    exists (sleeps : nat) (w0 : World),
      trace w' = trace w ++ poll_events v sleeps
      /\ (sleeps < fuel)%nat
      /\ w' = advance remote (EvPowerState v) w0
      /\ match r with
         | Ok _ => VM_PowerState remote w0 v = Ok "poweredOff"
         | Err e =>
           VM_PowerState remote w0 v = Err e
           \/ (e = shutdown_timeout_error
               /\ shutdownTimer <= clock w'
               /\ exists s, VM_PowerState remote w0 v = Ok s
                            /\ s <> "poweredOff")
         end.
Proof.
  induction fuel as [|fuel IH]; intros w r w' Hloop; [discriminate Hloop|].
  cbn [WaitForShutdown_loop] in Hloop. unfold remote_call in Hloop.
  destruct (VM_PowerState remote w v) as [s|e] eqn:Hs.
  - destruct (String.eqb s "poweredOff") eqn:Hoff.
    + injection Hloop as <- <-. apply String.eqb_eq in Hoff. subst s.
      exists O, w.
      split; [reflexivity|]. split; [lia|]. split; [reflexivity|exact Hs].
    + destruct (shutdownTimer <=? clock (advance remote (EvPowerState v) w))
               eqn:Hfired.
      * injection Hloop as <- <-. apply Z.leb_le in Hfired.
        apply String.eqb_neq in Hoff.
        exists O, w.
        split; [reflexivity|]. split; [lia|]. split; [reflexivity|].
        right. split; [reflexivity|]. split; [exact Hfired|].
        exists s. split; assumption.
      * destruct (IH _ _ _ Hloop) as (sleeps & w0 & Htrace & Hlt & Hw' & Hr).
        exists (S sleeps), w0.
        split; [|split; [lia|split; assumption]].
        rewrite Htrace. simpl. rewrite <- !app_assoc. reflexivity.
  - injection Hloop as <- <-. exists O, w.
    split; [reflexivity|]. split; [lia|]. split; [reflexivity|].
    left. exact Hs.
Qed.

(** More fuel does not change what the loop returned. *)
Lemma WaitForShutdown_loop_fuel (remote : Remote) (v : VirtualMachine)
      (shutdownTimer : Z) :
  forall (fuel : nat) (w : World) x,
    WaitForShutdown_loop remote fuel v shutdownTimer w = Some x ->
    forall fuel', (fuel <= fuel')%nat ->
                  WaitForShutdown_loop remote fuel' v shutdownTimer w = Some x.
Proof.
  induction fuel as [|fuel IH]; intros w x Hloop fuel' Hle;
    [discriminate Hloop|].
  destruct fuel' as [|fuel']; [lia|].
  cbn [WaitForShutdown_loop] in *. unfold remote_call in *.
  destruct (VM_PowerState remote w v) as [s|e]; [|exact Hloop].
  destruct (String.eqb s "poweredOff"); [exact Hloop|].
  destruct (shutdownTimer <=? clock (advance remote (EvPowerState v) w));
    [exact Hloop|].
  apply (IH _ _ Hloop). lia.
Qed.

(** X14: [WaitForShutdown] reports success only when the VM said so: if it
    returns [nil], its last call was a poll of the power state that the
    remote end answered with [poweredOff]. *)
Theorem WaitForShutdown_success_sound (remote : Remote) (v : VirtualMachine)
        (timeout : Z) (fuel : nat) (w : World) u w' :
  WaitForShutdown remote fuel v timeout w = Some (Ok u, w') ->
  exists w0,
    VM_PowerState remote w0 v = Ok "poweredOff"
    /\ w' = advance remote (EvPowerState v) w0.
Proof.
  unfold WaitForShutdown. intros Hloop.
  destruct (WaitForShutdown_loop_ends _ _ _ _ _ _ _ Hloop)
    as (sleeps & w0 & _ & _ & Hw' & Hr).
  eauto.
Qed.

(** X15: an error of [WaitForShutdown] is either the error that the remote
    end gave to its last poll, or the timeout error; and the timeout error
    is never reported before the timeout has passed on the clock. *)
Theorem WaitForShutdown_error_sound (remote : Remote) (v : VirtualMachine)
        (timeout : Z) (fuel : nat) (w : World) e w' :
  WaitForShutdown remote fuel v timeout w = Some (Err e, w') ->
  exists w0,
    w' = advance remote (EvPowerState v) w0
    /\ (VM_PowerState remote w0 v = Err e
        \/ (e = shutdown_timeout_error
            /\ clock w + timeout <= clock w'
            /\ exists s, VM_PowerState remote w0 v = Ok s
                         /\ s <> "poweredOff")).
Proof.
  unfold WaitForShutdown. intros Hloop.
  destruct (WaitForShutdown_loop_ends _ _ _ _ _ _ _ Hloop)
    as (sleeps & w0 & _ & _ & Hw' & Hr).
  eauto.
Qed.


(** X17: whenever [WaitForShutdown] returns, the calls it made are polls of
    the power state alternating with one-second sleeps, a poll first and a
    poll last, and nothing else; and running the loop for longer gives the
    same result. *)
Theorem WaitForShutdown_alternates (remote : Remote) (v : VirtualMachine)
        (timeout : Z) (fuel : nat) (w : World) r w' :
  WaitForShutdown remote fuel v timeout w = Some (r, w') ->
  (exists sleeps,
      new_events w w' = poll_events v sleeps /\ (sleeps < fuel)%nat)
  /\ (forall fuel', (fuel <= fuel')%nat ->
                    WaitForShutdown remote fuel' v timeout w = Some (r, w')).
Proof.
  unfold WaitForShutdown. intros Hloop. split.
  - destruct (WaitForShutdown_loop_ends _ _ _ _ _ _ _ Hloop)
      as (sleeps & w0 & Htrace & Hlt & _).
    exists sleeps. split; [|exact Hlt].
    apply new_events_app. exact Htrace.
  - intros fuel' Hle. exact (WaitForShutdown_loop_fuel _ _ _ _ _ _ Hloop _ Hle).
Qed.

Lemma WaitForShutdown_success_sound_witness :
  exists w0,
    VM_PowerState (Endpoint.remote off_after_two_calls) w0 Endpoint.template
    = Ok "poweredOff"
    /\ {| trace := [EvPowerState Endpoint.template; EvSleep Second;
                    EvPowerState Endpoint.template];
          clock := Second |}
       = advance (Endpoint.remote off_after_two_calls)
                 (EvPowerState Endpoint.template) w0.
Proof.
  exact (WaitForShutdown_success_sound (Endpoint.remote off_after_two_calls)
           Endpoint.template (5 * Second) 10 Endpoint.start tt _ eq_refl).
Defined.

Lemma WaitForShutdown_error_sound_witness :
  exists w0,
    {| trace := [EvPowerState Endpoint.template; EvSleep Second;
                 EvPowerState Endpoint.template; EvSleep Second;
                 EvPowerState Endpoint.template];
       clock := 2 * Second |}
    = advance (Endpoint.remote Endpoint.always_on)
              (EvPowerState Endpoint.template) w0
    /\ (VM_PowerState (Endpoint.remote Endpoint.always_on) w0
          Endpoint.template = Err shutdown_timeout_error
        \/ (shutdown_timeout_error = shutdown_timeout_error
            /\ clock Endpoint.start + 2 * Second <= 2 * Second
            /\ exists s,
                VM_PowerState (Endpoint.remote Endpoint.always_on) w0
                  Endpoint.template = Ok s
                /\ s <> "poweredOff")).
Proof.
  exact (WaitForShutdown_error_sound (Endpoint.remote Endpoint.always_on)
           Endpoint.template (2 * Second) 10 Endpoint.start _ _ eq_refl).
Defined.


Lemma WaitForShutdown_alternates_witness :
  (exists sleeps,
      new_events Endpoint.start
                 {| trace := [EvPowerState Endpoint.template; EvSleep Second;
                              EvPowerState Endpoint.template];
                    clock := Second |}
      = poll_events Endpoint.template sleeps
      /\ (sleeps < 10)%nat)
  /\ (forall fuel',
         (10 <= fuel')%nat ->
         WaitForShutdown (Endpoint.remote off_after_two_calls) fuel'
                         Endpoint.template (5 * Second) Endpoint.start
         = Some (Ok tt,
                 {| trace := [EvPowerState Endpoint.template; EvSleep Second;
                              EvPowerState Endpoint.template];
                    clock := Second |})).
Proof.
  exact (WaitForShutdown_alternates (Endpoint.remote off_after_two_calls)
           Endpoint.template (5 * Second) 10 Endpoint.start _ _ eq_refl).
Defined.

(** ** Inserting an ISO, continued *)

(** How runs of [AddCdrom] submit. *)
Lemma AddCdrom_submits (remote : Remote) (lib : DeviceLib)
      (v : VirtualMachine) (isoPath : string) (w : World) r evs :
  run (AddCdrom remote lib v isoPath) w = (r, evs) ->
  (List.length (filter is_reconfigure_task evs) <= 1)%nat
  /\ (forall msg, r <> Panics msg)
  /\ (forall v' spec,
         In (EvReconfigure v' spec) evs ->
         v' = v
         /\ ConfigSpec.with_DeviceChange [] spec = ConfigSpec.zero
         /\ exists devices ide cdrom,
             VM_Device remote w v = Ok devices
             /\ FindIDEController lib devices "" = Ok ide
             /\ CreateCdrom lib devices ide = Ok cdrom
             /\ ConfigSpec.DeviceChange spec
                = fst (DeviceList_ConfigSpec lib
                         [InsertIso lib devices cdrom isoPath]
                         VirtualDeviceConfigSpecOperationAdd)).
Proof.
  unfold AddCdrom. unfold_monad. simpl.
  repeat (next_answer; simpl); read_events;
    intros Hrun; injection Hrun as <- <-;
    (split; [simpl; lia|]);
    (split; [intros msg; discriminate|]);
    intros ? ? Hin; simpl in Hin;
    repeat match goal with
           | H : _ \/ _ |- _ => destruct H as [H|H]
           | H : False |- _ => destruct H
           | H : _ = EvReconfigure _ _ |- _ =>
             first [ discriminate H | injection H as <- <- ]
           end;
    (split; [reflexivity|]); (split; [reflexivity|]);
    do 3 eexists; (split; [reflexivity|]);
    (split; [eassumption|]); (split; [eassumption|]);
    match goal with
    | H : DeviceList_ConfigSpec _ _ _ = _ |- _ => rewrite H; reflexivity
    end.
Qed.

(** X18: the reconfiguration that [AddCdrom] submits is for the VM it was
    called on and changes devices only: apart from the device changes the
    specification is empty (no CPU, memory, name, annotation, guest id or
    files); and a run holds at most one reconfigure task. *)
Theorem AddCdrom_changes_devices_only (remote : Remote) (lib : DeviceLib)
        (v : VirtualMachine) (isoPath : string) (w : World) r evs :
  run (AddCdrom remote lib v isoPath) w = (r, evs) ->
  (List.length (filter is_reconfigure_task evs) <= 1)%nat
  /\ (forall v' spec,
         In (EvReconfigure v' spec) evs ->
         v' = v /\ ConfigSpec.with_DeviceChange [] spec = ConfigSpec.zero).
Proof.
  intros Hrun.
  destruct (AddCdrom_submits _ _ _ _ _ _ _ Hrun) as (Hone & _ & Hspec).
  split; [exact Hone|].
  intros v' spec Hin. destruct (Hspec v' spec Hin) as (Hv & Hzero & _). auto.
Qed.


Lemma AddCdrom_changes_devices_only_witness :
  exists spec,
    In (EvReconfigure Endpoint.template spec)
       (snd (run (AddCdrom (Endpoint.remote Endpoint.always_on) Govmomi.lib
                           Endpoint.template "[datastore1] os.iso")
                 Endpoint.start))
    /\ ConfigSpec.with_DeviceChange [] spec = ConfigSpec.zero.
Proof.
  pose (spec :=
          match nth 1 (snd (run (AddCdrom (Endpoint.remote Endpoint.always_on)
                                          Govmomi.lib Endpoint.template
                                          "[datastore1] os.iso")
                                Endpoint.start)) (EvSleep 0) with
          | EvReconfigure _ s => s
          | _ => ConfigSpec.zero
          end).
  exists spec.
  assert (Hin : In (EvReconfigure Endpoint.template spec)
                   (snd (run (AddCdrom (Endpoint.remote Endpoint.always_on)
                                       Govmomi.lib Endpoint.template
                                       "[datastore1] os.iso")
                             Endpoint.start))).
  { simpl. right. left. reflexivity. }
  split; [exact Hin|].
  exact (proj2 (proj2 (AddCdrom_changes_devices_only
                         (Endpoint.remote Endpoint.always_on) Govmomi.lib
                         Endpoint.template "[datastore1] os.iso"
                         Endpoint.start _ _ eq_refl)
                      Endpoint.template spec Hin)).
Defined.


(** ** Reconfiguring hardware *)



(** ** Reading properties *)

(** X21: [Info] makes exactly one call and never asks for an empty list of
    properties: without parameters it asks for ["*"], otherwise for the
    parameters as given; it returns what the remote end answered. *)
Theorem Info_never_empty (remote : Remote) (v : VirtualMachine)
        (params : list string) (w : World) r evs :
  run (Info remote v params) w = (r, evs) ->
  exists p,
    evs = [EvProperties v p]
    /\ p <> []
    /\ (params = [] -> p = ["*"])
    /\ (params <> [] -> p = params)
    /\ r = Returns (VM_Properties remote w v p).
Proof.
  unfold Info. unfold_monad. simpl. read_events.
  intros Hrun. injection Hrun as <- <-.
  destruct params as [|x params].
  - exists ["*"]. repeat split; try discriminate; auto. congruence.
  - exists (x :: params). repeat split; try discriminate; auto.
Qed.

Lemma Info_never_empty_witness :
  exists p,
    snd (run (Info (Endpoint.remote Endpoint.with_snapshot) Endpoint.template
                   []) Endpoint.start)
    = [EvProperties Endpoint.template p]
    /\ p = ["*"].
Proof.
  destruct (Info_never_empty (Endpoint.remote Endpoint.with_snapshot)
              Endpoint.template [] Endpoint.start _ _ eq_refl)
    as (p & Hevs & _ & Hstar & _).
  exists p. split; [exact Hevs | exact (Hstar eq_refl)].
Defined.
